(** * The user service of ozeemandias/auth: handlers, statements and store

    A shallow embedding of the gRPC user service (Create, Get, Update,
    Delete), of the statements it builds with squirrel, and of the [users]
    table of the migration, followed by the properties of the
    specification that were checked against it.

    Conventions.
    - Go strings are byte strings ([string] of [ascii]).  The functions of
      Go's [strings] package are embedded on their ASCII path: a byte of
      value 128 or more is neither a space nor a cased letter here.
    - A Go [(T, error)] result is a [result T]; an [error] is its text.
    - The connection pool is threaded explicitly: every handler takes the
      store and returns the store it leaves behind.  What a call cannot
      read from its arguments (the clock of the store, the random salt, a
      failure of the connection) comes in an [Env]. *)

From Stdlib Require Import ZArith Ascii String.
From stdpp Require Import base option list strings pretty gmap.

Local Open Scope string_scope.
Local Open Scope Z_scope.

#[local] Set Warnings "-clear-no-such-hyp".

(** ** Errors *)

Definition error := string.

Inductive result (A : Type) : Type :=
| Ok (a : A)
| Err (e : error).
Arguments Ok {A} a.
Arguments Err {A} e.

(** [x ← r; k] is Go's [x, err := r; if err != nil { return err }; k]. *)
#[global] Instance result_bind : MBind result := λ A B k r,
  match r with
  | Ok a => k a
  | Err e => Err e
  end.

(** ** Package [strings] (ASCII path) *)

Module Strings.

Definition byte_of (c : ascii) : N := Ascii.N_of_ascii c.

(** '\t', '\n', '\v', '\f', '\r' and ' '. *)
Definition isSpace (c : ascii) : bool :=
  let n := byte_of c in
  ((9 <=? n) && (n <=? 13) || (n =? 32))%N.

Definition toLower (c : ascii) : ascii :=
  let n := byte_of c in
  if ((65 <=? n) && (n <=? 90))%N then Ascii.ascii_of_N (n + 32) else c.

Definition toUpper (c : ascii) : ascii :=
  let n := byte_of c in
  if ((97 <=? n) && (n <=? 122))%N then Ascii.ascii_of_N (n - 32) else c.

Fixpoint Map (f : ascii → ascii) (s : string) : string :=
  match s with
  | EmptyString => EmptyString
  | String c s' => String (f c) (Map f s')
  end.

Definition ToLower (s : string) : string := Map toLower s.
Definition ToUpper (s : string) : string := Map toUpper s.

Fixpoint TrimLeft (s : string) : string :=
  match s with
  | EmptyString => EmptyString
  | String c s' => if isSpace c then TrimLeft s' else s
  end.

Fixpoint TrimRight (s : string) : string :=
  match s with
  | EmptyString => EmptyString
  | String c s' =>
      match TrimRight s' with
      | EmptyString => if isSpace c then EmptyString else String c EmptyString
      | t => String c t
      end
  end.

Definition TrimSpace (s : string) : string := TrimRight (TrimLeft s).

End Strings.

(** ** Package [user_v1]: the messages of the service *)

Module user_v1.

(** Modelled from the spec: the generated package [pkg/user_v1] is not
    among the sources.  The role is a closed enumeration over
    unspecified, user and admin, the first being the zero value; the
    names are those the handlers refer to ([Role_UNSPECIFIED]) and the
    labels of the migration, upper-cased. *)
Inductive Role : Set := Role_UNSPECIFIED | Role_USER | Role_ADMIN.

(** Modelled from the spec: the numbers of the generated enumeration;
    the unspecified role is its zero value. *)
Definition Role_number (r : Role) : Z :=
  match r with
  | Role_UNSPECIFIED => 0
  | Role_USER => 1
  | Role_ADMIN => 2
  end.

(** Modelled from the spec: the generated table [Role_name], from
    values to names. *)
Definition Role_name (r : Role) : string :=
  match r with
  | Role_UNSPECIFIED => "UNSPECIFIED"
  | Role_USER => "USER"
  | Role_ADMIN => "ADMIN"
  end.

(** Modelled from the spec: the generated table [Role_value], from
    names to values. *)
Definition Role_value : gmap string Role :=
  list_to_map [("UNSPECIFIED", Role_UNSPECIFIED); ("USER", Role_USER); ("ADMIN", Role_ADMIN)].

(** Modelled from the spec: the generated method [Role.String()],
    which returns the name of the value. *)
Definition String_ (r : Role) : string := Role_name r.

#[global] Instance Role_eq_dec : EqDecision Role.
Proof. solve_decision. Defined.

Record CreateRequest := {
  cr_Name : string;
  cr_Email : string;
  cr_Password : string;
  cr_Role : Role
}.

Record CreateResponse := { cresp_Id : Z }.

Record GetRequest := { gr_Id : Z }.

(** [timestamppb.Timestamp] *)
Record Timestamp := { Seconds : Z; Nanos : Z }.

Record GetResponse := {
  g_Id : Z;
  g_Name : string;
  g_Email : string;
  g_Role : Role;
  g_CreatedAt : Timestamp;
  g_UpdatedAt : Timestamp
}.

(** The wrapped strings of an update are optional ([nil] is [None]). *)
Record UpdateRequest := {
  ur_Id : Z;
  ur_Email : option string;
  ur_Name : option string;
  ur_Role : Role
}.

Record DeleteRequest := { dr_Id : Z }.

(** [emptypb.Empty] *)
Inductive Empty : Set := Empty_.

End user_v1.

(** ** Package [database/sql]: what a scanner is handed *)

Module sql.

(** The values the driver hands to a [Scanner]: NULL, text, bytes, and
    for completeness integers and booleans, which [NullString] renders,
    and a value of a type it cannot store into a string. *)
Inductive Value : Type :=
| VNil
| VString (s : string)
| VBytes (b : string)
| VInt64 (z : Z)
| VBool (b : bool)
| VOther (type_name : string).

Record NullString := { String_ : string; Valid : bool }.

(** [convertAssign] with a string destination. *)
Definition convertAssign (v : Value) : result string :=
  match v with
  | VNil => Err "converting NULL to string is unsupported"
  | VString s => Ok s
  | VBytes b => Ok b
  | VInt64 z => Ok (pretty z)
  | VBool b => Ok (if b then "true" else "false")
  | VOther t =>
      Err ("unsupported Scan, storing driver.Value type " +:+ t +:+ " into type *string")
  end.

(** [NullString.Scan] *)
Definition NullString_Scan (v : Value) : result NullString :=
  match v with
  | VNil => Ok {| String_ := ""; Valid := false |}
  | _ => s ← convertAssign v; Ok {| String_ := s; Valid := true |}
  end.

End sql.

(** ** [userRole.Scan] *)

Definition userRole := user_v1.Role.

Definition userRole_Scan (v : sql.Value) : result userRole :=
  ns ← sql.NullString_Scan v;
  if negb (sql.Valid ns) then Ok user_v1.Role_UNSPECIFIED
  else
    match user_v1.Role_value !! Strings.ToUpper (sql.String_ ns) with
    | Some val => Ok val
    | None => Ok user_v1.Role_UNSPECIFIED
    end.

(** ** Package [bcrypt] *)

Module bcrypt.

Definition MinCost : Z := 4.
Definition MaxCost : Z := 31.
Definition DefaultCost : Z := 10.

Definition ErrPasswordTooLong : error := "bcrypt: password length exceeds 72 bytes".

(** The cost is written on two digits. *)
Definition cost_digits (cost : Z) : string :=
  if cost <? 10 then "0" +:+ pretty cost else pretty cost.

Section Primitives.
(** The key schedule and cipher of bcrypt are not embedded: the
    encoding of the 16 bytes of salt (22 characters in the library) and
    the encoded digest of a password under a cost and an encoded salt
    (31 characters) are taken as given. *)
Variable base64Encode : string → string.
Variable digest : string → Z → string → string.

(** [GenerateFromPassword]; [rnd] is what reading 16 bytes from the
    random source returns. *)
Definition GenerateFromPassword (rnd : result string) (password : string) (cost : Z)
  : result string :=
  if (72 <? String.length password)%nat then Err ErrPasswordTooLong
  else
    let cost := if cost <? MinCost then DefaultCost else cost in
    if MaxCost <? cost then Err ("crypto/bcrypt: cost " +:+ pretty cost +:+ " is outside allowed range (4,31)")
    else
      unencodedSalt ← rnd;
      let salt := base64Encode unencodedSalt in
      let hash := digest password cost salt in
      Ok ("$2a$" +:+ cost_digits cost +:+ "$" +:+ salt +:+ hash).
End Primitives.

End bcrypt.

(** ** Package [squirrel]: statement builders *)

Module sq.

(** A Go value bound as an argument of a statement. *)
Inductive arg : Type := AString (s : string) | AInt64 (z : Z).

(** What [Values] and [Set] are given: a Go value, rendered as a
    placeholder, or an [Expr] without arguments, rendered as it is. *)
Inductive value : Type := Val (a : arg) | Expr (sql : string).

(** [sq.Eq] with a single key. *)
Record Eq := { eq_column : string; eq_value : arg }.

Inductive placeholderFormat : Set := Question | Dollar.

Record setClause := { column : string; value_ : value }.

Record insertData := {
  i_PlaceholderFormat : placeholderFormat;
  Into : string;
  Columns_ : list string;
  Values_ : list (list value);
  i_Suffixes : list string
}.

Record selectData := {
  s_PlaceholderFormat : placeholderFormat;
  s_Columns : list string;
  s_From : option string;
  s_WhereParts : list Eq
}.

Record updateData := {
  u_PlaceholderFormat : placeholderFormat;
  Table : string;
  SetClauses : list setClause;
  u_WhereParts : list Eq
}.

Record deleteData := {
  d_PlaceholderFormat : placeholderFormat;
  d_From : string;
  d_WhereParts : list Eq
}.

(** *** The builders the handlers call *)

Definition Insert (into : string) : insertData :=
  {| i_PlaceholderFormat := Question; Into := into; Columns_ := [];
     Values_ := []; i_Suffixes := [] |}.

Definition Columns (cols : list string) (b : insertData) : insertData :=
  {| i_PlaceholderFormat := i_PlaceholderFormat b; Into := Into b;
     Columns_ := Columns_ b ++ cols; Values_ := Values_ b;
     i_Suffixes := i_Suffixes b |}.

Definition Values (vals : list value) (b : insertData) : insertData :=
  {| i_PlaceholderFormat := i_PlaceholderFormat b; Into := Into b;
     Columns_ := Columns_ b; Values_ := Values_ b ++ [vals];
     i_Suffixes := i_Suffixes b |}.

Definition Suffix (sql : string) (b : insertData) : insertData :=
  {| i_PlaceholderFormat := i_PlaceholderFormat b; Into := Into b;
     Columns_ := Columns_ b; Values_ := Values_ b;
     i_Suffixes := i_Suffixes b ++ [sql] |}.

Definition i_Placeholder (f : placeholderFormat) (b : insertData) : insertData :=
  {| i_PlaceholderFormat := f; Into := Into b; Columns_ := Columns_ b;
     Values_ := Values_ b; i_Suffixes := i_Suffixes b |}.

Definition Select (cols : list string) : selectData :=
  {| s_PlaceholderFormat := Question; s_Columns := cols; s_From := None;
     s_WhereParts := [] |}.

Definition From_ (from : string) (b : selectData) : selectData :=
  {| s_PlaceholderFormat := s_PlaceholderFormat b; s_Columns := s_Columns b;
     s_From := Some from; s_WhereParts := s_WhereParts b |}.

Definition s_Where (p : Eq) (b : selectData) : selectData :=
  {| s_PlaceholderFormat := s_PlaceholderFormat b; s_Columns := s_Columns b;
     s_From := s_From b; s_WhereParts := s_WhereParts b ++ [p] |}.

Definition s_Placeholder (f : placeholderFormat) (b : selectData) : selectData :=
  {| s_PlaceholderFormat := f; s_Columns := s_Columns b; s_From := s_From b;
     s_WhereParts := s_WhereParts b |}.

Definition Update (table : string) : updateData :=
  {| u_PlaceholderFormat := Question; Table := table; SetClauses := [];
     u_WhereParts := [] |}.

Definition u_Where (p : Eq) (b : updateData) : updateData :=
  {| u_PlaceholderFormat := u_PlaceholderFormat b; Table := Table b;
     SetClauses := SetClauses b; u_WhereParts := u_WhereParts b ++ [p] |}.

Definition u_Placeholder (f : placeholderFormat) (b : updateData) : updateData :=
  {| u_PlaceholderFormat := f; Table := Table b; SetClauses := SetClauses b;
     u_WhereParts := u_WhereParts b |}.

(** [Set] appends a clause; clauses are rendered in the order of the calls. *)
Definition Set_ (col : string) (v : value) (b : updateData) : updateData :=
  {| u_PlaceholderFormat := u_PlaceholderFormat b; Table := Table b;
     SetClauses := SetClauses b ++ [{| column := col; value_ := v |}];
     u_WhereParts := u_WhereParts b |}.

Definition Delete (from : string) : deleteData :=
  {| d_PlaceholderFormat := Question; d_From := from; d_WhereParts := [] |}.

Definition d_Where (p : Eq) (b : deleteData) : deleteData :=
  {| d_PlaceholderFormat := d_PlaceholderFormat b; d_From := d_From b;
     d_WhereParts := d_WhereParts b ++ [p] |}.

Definition d_Placeholder (f : placeholderFormat) (b : deleteData) : deleteData :=
  {| d_PlaceholderFormat := f; d_From := d_From b; d_WhereParts := d_WhereParts b |}.

(** *** [ToSql]: validation and rendering *)

Fixpoint Join (elems : list string) (sep : string) : string :=
  match elems with
  | [] => ""
  | [x] => x
  | x :: rest => x +:+ sep +:+ Join rest sep
  end.

(** [Dollar.ReplacePlaceholders]: the i-th question mark becomes [$i], a
    doubled question mark is an escaped one. *)
Fixpoint replacePositionalPlaceholders (sql : string) (i : nat) : string :=
  match sql with
  | EmptyString => EmptyString
  | String c rest =>
      if Ascii.eqb c "?" then
        match rest with
        | String c' rest' =>
            if Ascii.eqb c' "?" then String "?" (replacePositionalPlaceholders rest' i)
            else "$" +:+ pretty (S i) +:+ replacePositionalPlaceholders rest (S i)
        | EmptyString => "$" +:+ pretty (S i)
        end
      else String c (replacePositionalPlaceholders rest i)
  end.

Definition ReplacePlaceholders (f : placeholderFormat) (sql : string) : string :=
  match f with
  | Question => sql
  | Dollar => replacePositionalPlaceholders sql 0
  end.

Definition value_sql (v : value) : string :=
  match v with Val _ => "?" | Expr sql => sql end.

Definition value_args (v : value) : list arg :=
  match v with Val a => [a] | Expr _ => [] end.

Definition Eq_sql (p : Eq) : string := eq_column p +:+ " = ?".

Definition where_sql (parts : list Eq) : string :=
  match parts with
  | [] => ""
  | _ => " WHERE " +:+ Join (Eq_sql <$> parts) " AND "
  end.

Definition where_args (parts : list Eq) : list arg := eq_value <$> parts.

Definition insert_ToSql (d : insertData) : result (string * list arg) :=
  if bool_decide (Into d = "") then Err "insert statements must specify a table"
  else if bool_decide (Values_ d = []) then
    Err "insert statements must have at least one set of values or select clause"
  else
    let cols :=
      match Columns_ d with
      | [] => ""
      | cs => "(" +:+ Join cs "," +:+ ") "
      end in
    let rows := (λ row, "(" +:+ Join (value_sql <$> row) "," +:+ ")") <$> Values_ d in
    let suffixes :=
      match i_Suffixes d with
      | [] => ""
      | ss => " " +:+ Join ss " "
      end in
    Ok (ReplacePlaceholders (i_PlaceholderFormat d)
          ("INSERT INTO " +:+ Into d +:+ " " +:+ cols +:+ "VALUES " +:+ Join rows "," +:+ suffixes),
        concat ((λ row, concat (value_args <$> row)) <$> Values_ d)).

Definition select_ToSql (d : selectData) : result (string * list arg) :=
  if bool_decide (s_Columns d = []) then
    Err "select statements must have at least one result column"
  else
    let from :=
      match s_From d with
      | None => ""
      | Some t => " FROM " +:+ t
      end in
    Ok (ReplacePlaceholders (s_PlaceholderFormat d)
          ("SELECT " +:+ Join (s_Columns d) ", " +:+ from +:+ where_sql (s_WhereParts d)),
        where_args (s_WhereParts d)).

Definition update_ToSql (d : updateData) : result (string * list arg) :=
  if bool_decide (Table d = "") then Err "update statements must specify a table"
  else if bool_decide (SetClauses d = []) then
    Err "update statements must have at least one Set clause"
  else
    let sets := (λ c, column c +:+ " = " +:+ value_sql (value_ c)) <$> SetClauses d in
    Ok (ReplacePlaceholders (u_PlaceholderFormat d)
          ("UPDATE " +:+ Table d +:+ " SET " +:+ Join sets ", " +:+ where_sql (u_WhereParts d)),
        (concat ((λ c, value_args (value_ c)) <$> SetClauses d)
           ++ where_args (u_WhereParts d))%list).

Definition delete_ToSql (d : deleteData) : result (string * list arg) :=
  if bool_decide (d_From d = "") then Err "delete statements must specify a From table"
  else
    Ok (ReplacePlaceholders (d_PlaceholderFormat d)
          ("DELETE FROM " +:+ d_From d +:+ where_sql (d_WhereParts d)),
        where_args (d_WhereParts d)).

(** A statement as the store receives it.  The store of this
    development runs the statement from its data, of which the text
    returned by [ToSql] is the rendering. *)
Inductive Statement : Type :=
| SInsert (d : insertData)
| SSelect (d : selectData)
| SUpdate (d : updateData)
| SDelete (d : deleteData).

Definition ToSql (s : Statement) : result (string * list arg) :=
  match s with
  | SInsert d => insert_ToSql d
  | SSelect d => select_ToSql d
  | SUpdate d => update_ToSql d
  | SDelete d => delete_ToSql d
  end.

End sq.

(** ** What a call takes from outside *)

Record Env := {
  (** the clock of the store when the statement runs, in milliseconds *)
  env_now : Z;
  (** a failure of the store call that the schema does not explain: a
      lost connection, a cancelled context *)
  env_fault : option error;
  (** what reading the salt from the random source returns *)
  env_rand : result string
}.

(** ** The store: the [users] table of the migration behind the pool

    The store is embedded at the level of the migration: the columns and
    their types, the labels of the enumerated type, [NOT NULL], the
    primary key, the two [UNIQUE] constraints, the defaults of the two
    timestamps and the sequence behind [SERIAL].  A text column takes any
    string and an id is an integer without a width.  Whatever else can
    make a call to the store fail is [env_fault]. *)

Module pgx.

Definition ErrNoRows : error := "no rows in result set".

(** [CREATE TYPE "user_role" AS ENUM ('user', 'admin')] *)
Definition user_role : list string := ["user"; "admin"].

(** A row of ["users"]; the table maps the primary key ["id"] to the
    other columns. *)
Record users_row := {
  name : string;
  email : string;
  password : string;
  role : string;
  created_at : Z;
  updated_at : Z
}.

Record Pool := {
  users : gmap Z users_row;
  (** last value of the sequence behind [SERIAL] *)
  users_id_seq : Z;
  (** the statements the pool was asked to run, latest first *)
  journal : list sq.Statement
}.

Definition with_users (t : gmap Z users_row) (db : Pool) : Pool :=
  {| users := t; users_id_seq := users_id_seq db; journal := journal db |}.

Definition with_seq (n : Z) (db : Pool) : Pool :=
  {| users := users db; users_id_seq := n; journal := journal db |}.

Definition record (s : sq.Statement) (db : Pool) : Pool :=
  {| users := users db; users_id_seq := users_id_seq db; journal := s :: journal db |}.

Definition set_name (s : string) (r : users_row) : users_row :=
  {| name := s; email := email r; password := password r; role := role r;
     created_at := created_at r; updated_at := updated_at r |}.

Definition set_email (s : string) (r : users_row) : users_row :=
  {| name := name r; email := s; password := password r; role := role r;
     created_at := created_at r; updated_at := updated_at r |}.

Definition set_password (s : string) (r : users_row) : users_row :=
  {| name := name r; email := email r; password := s; role := role r;
     created_at := created_at r; updated_at := updated_at r |}.

Definition set_role (s : string) (r : users_row) : users_row :=
  {| name := name r; email := email r; password := password r; role := s;
     created_at := created_at r; updated_at := updated_at r |}.

Definition set_created_at (t : Z) (r : users_row) : users_row :=
  {| name := name r; email := email r; password := password r; role := role r;
     created_at := t; updated_at := updated_at r |}.

Definition set_updated_at (t : Z) (r : users_row) : users_row :=
  {| name := name r; email := email r; password := password r; role := role r;
     created_at := created_at r; updated_at := t |}.

(** A value in a result row. *)
Inductive Datum : Type :=
| DInt (z : Z)
| DText (s : string)
| DTimestamp (ms : Z).

(** *** Binding a value to a column *)

Definition text_column (col : string) (v : sq.value) (set : string → users_row → users_row)
  : result (users_row → users_row) :=
  match v with
  | sq.Val (sq.AString s) => Ok (set s)
  | _ => Err ("column " +:+ col +:+ " is of type text")
  end.

Definition timestamp_column (now : Z) (col : string) (v : sq.value)
    (set : Z → users_row → users_row) : result (users_row → users_row) :=
  match v with
  | sq.Expr sql =>
      if bool_decide (sql = "NOW()") then Ok (set now)
      else Err ("column " +:+ col +:+ " is of type timestamp")
  | _ => Err ("column " +:+ col +:+ " is of type timestamp")
  end.

(** The role is of the enumerated type: a text that is not one of its
    labels is refused when the value is bound. *)
Definition role_column (v : sq.value) : result (users_row → users_row) :=
  match v with
  | sq.Val (sq.AString s) =>
      if bool_decide (s ∈ user_role) then Ok (set_role s)
      else Err ("invalid input value for enum user_role: " +:+ s)
  | _ => Err "column role is of type user_role"
  end.

(** The service never assigns ["id"]: it comes from the sequence.  A
    statement that assigns it is outside this development and refused. *)
Definition assign (now : Z) (col : string) (v : sq.value) : result (users_row → users_row) :=
  if bool_decide (col = "name") then text_column col v set_name
  else if bool_decide (col = "email") then text_column col v set_email
  else if bool_decide (col = "password") then text_column col v set_password
  else if bool_decide (col = "role") then role_column v
  else if bool_decide (col = "created_at") then timestamp_column now col v set_created_at
  else if bool_decide (col = "updated_at") then timestamp_column now col v set_updated_at
  else if bool_decide (col = "id") then Err "assigning id is not supported"
  else Err ("column " +:+ col +:+ " of relation users does not exist").

Fixpoint assign_all (now : Z) (l : list (string * sq.value)) : result (users_row → users_row) :=
  match l with
  | [] => Ok (λ r, r)
  | (col, v) :: rest =>
      f ← assign now col v;
      g ← assign_all now rest;
      Ok (λ r, g (f r))
  end.

(** The condition of every statement of the service: [id = $n]. *)
Definition where_id (parts : list sq.Eq) : result Z :=
  match parts with
  | [p] =>
      if bool_decide (sq.eq_column p = "id") then
        match sq.eq_value p with
        | sq.AInt64 z => Ok z
        | sq.AString _ => Err "invalid input syntax for type integer"
        end
      else Err "only a condition on id is supported"
  | _ => Err "only a condition on id is supported"
  end.

Definition relation (table : string) : result unit :=
  if bool_decide (table = "users") then Ok ()
  else Err ("relation " +:+ table +:+ " does not exist").

(** [UNIQUE ("email")] and [UNIQUE ("name")], for the row written at
    key [id]. *)
Definition email_free (id : Z) (s : string) (t : gmap Z users_row) : bool :=
  bool_decide (map_Forall (λ k r, k = id ∨ email r ≠ s) t).

Definition name_free (id : Z) (s : string) (t : gmap Z users_row) : bool :=
  bool_decide (map_Forall (λ k r, k = id ∨ name r ≠ s) t).

Definition not_null_columns : list string := ["name"; "email"; "password"; "role"].

(** *** Running a statement against the table *)

(** What a statement returns: its result rows and the number of rows it
    affected. *)
Record Result := { result_rows : list (list Datum); RowsAffected : Z }.

Definition returning (suffixes : list string) (id : Z) : result (list (list Datum)) :=
  match suffixes with
  | [] => Ok []
  | [s] =>
      if bool_decide (s = "RETURNING id") then Ok [[DInt id]]
      else Err "only RETURNING id is supported"
  | _ => Err "only RETURNING id is supported"
  end.

(** [INSERT]: the values are bound to their columns; the id is drawn
    from the sequence, which keeps the draw when a constraint then
    refuses the row; ["created_at"] and ["updated_at"] take their
    default, the current time. *)
Definition insert_analyse (now id : Z) (d : sq.insertData)
  : result ((users_row → users_row) * list (list Datum)) :=
  _ ← relation (sq.Into d);
  match sq.Values_ d with
  | [vals] =>
      if negb (bool_decide (length (sq.Columns_ d) = length vals)) then
        Err "INSERT has a different number of target columns and expressions"
      else if negb (bool_decide (NoDup (sq.Columns_ d))) then
        Err "column specified more than once"
      else
        set ← assign_all now (zip (sq.Columns_ d) vals);
        rows ← returning (sq.i_Suffixes d) id;
        Ok (set, rows)
  | _ => Err "only single-row inserts are supported"
  end.

Definition default_row (now : Z) : users_row :=
  {| name := ""; email := ""; password := ""; role := "";
     created_at := now; updated_at := now |}.

Definition insert_row (id : Z) (cols : list string) (r : users_row)
    (rows : list (list Datum)) (db : Pool) : result Result * Pool :=
  let db' := with_seq id db in
  if negb (forallb (λ c, bool_decide (c ∈ cols)) not_null_columns) then
    (Err "null value violates not-null constraint", db')
  else if bool_decide (is_Some (users db !! id)) then
    (Err "duplicate key value violates unique constraint users_pkey", db')
  else if negb (email_free id (email r) (users db)) then
    (Err "duplicate key value violates unique constraint users_email_key", db')
  else if negb (name_free id (name r) (users db)) then
    (Err "duplicate key value violates unique constraint users_name_key", db')
  else
    (Ok {| result_rows := rows; RowsAffected := 1 |},
     with_users (<[id := r]> (users db)) db').

Definition insert (now : Z) (d : sq.insertData) (db : Pool) : result Result * Pool :=
  let id := users_id_seq db + 1 in
  match insert_analyse now id d with
  | Err e => (Err e, db)
  | Ok (set, rows) => insert_row id (sq.Columns_ d) (set (default_row now)) rows db
  end.

Definition project (col : string) : result (Z → users_row → Datum) :=
  if bool_decide (col = "id") then Ok (λ id _, DInt id)
  else if bool_decide (col = "name") then Ok (λ _ r, DText (name r))
  else if bool_decide (col = "email") then Ok (λ _ r, DText (email r))
  else if bool_decide (col = "password") then Ok (λ _ r, DText (password r))
  else if bool_decide (col = "role") then Ok (λ _ r, DText (role r))
  else if bool_decide (col = "created_at") then Ok (λ _ r, DTimestamp (created_at r))
  else if bool_decide (col = "updated_at") then Ok (λ _ r, DTimestamp (updated_at r))
  else Err ("column " +:+ col +:+ " does not exist").

Fixpoint project_all (cols : list string) : result (Z → users_row → list Datum) :=
  match cols with
  | [] => Ok (λ _ _, [])
  | col :: rest =>
      f ← project col;
      g ← project_all rest;
      Ok (λ id r, f id r :: g id r)
  end.

Definition select_analyse (d : sq.selectData) : result (Z * (Z → users_row → list Datum)) :=
  _ ← match sq.s_From d with
      | Some t => relation t
      | None => Err "a select without FROM is not supported"
      end;
  id ← where_id (sq.s_WhereParts d);
  f ← project_all (sq.s_Columns d);
  Ok (id, f).

Definition select (d : sq.selectData) (db : Pool) : result Result * Pool :=
  match select_analyse d with
  | Err e => (Err e, db)
  | Ok (id, f) =>
      match users db !! id with
      | None => (Ok {| result_rows := []; RowsAffected := 0 |}, db)
      | Some r => (Ok {| result_rows := [f id r]; RowsAffected := 1 |}, db)
      end
  end.

(** [UPDATE]: the row of the given id, when there is one, gets the
    assignments; without such a row nothing is written and zero rows are
    affected.  A unique index is consulted for the column it covers when
    the statement assigns that column. *)
Definition update_analyse (now : Z) (d : sq.updateData)
  : result (Z * (users_row → users_row)) :=
  _ ← relation (sq.Table d);
  id ← where_id (sq.u_WhereParts d);
  if negb (bool_decide (NoDup (sq.column <$> sq.SetClauses d))) then
    Err "multiple assignments to same column"
  else
    set ← assign_all now ((λ c, (sq.column c, sq.value_ c)) <$> sq.SetClauses d);
    Ok (id, set).

Definition update_row (id : Z) (cols : list string) (r' : users_row) (db : Pool)
  : result Result * Pool :=
  if bool_decide ("email" ∈ cols) && negb (email_free id (email r') (users db)) then
    (Err "duplicate key value violates unique constraint users_email_key", db)
  else if bool_decide ("name" ∈ cols) && negb (name_free id (name r') (users db)) then
    (Err "duplicate key value violates unique constraint users_name_key", db)
  else
    (Ok {| result_rows := []; RowsAffected := 1 |},
     with_users (<[id := r']> (users db)) db).

Definition update (now : Z) (d : sq.updateData) (db : Pool) : result Result * Pool :=
  match update_analyse now d with
  | Err e => (Err e, db)
  | Ok (id, set) =>
      match users db !! id with
      | None => (Ok {| result_rows := []; RowsAffected := 0 |}, db)
      | Some r => update_row id (sq.column <$> sq.SetClauses d) (set r) db
      end
  end.

Definition delete_analyse (d : sq.deleteData) : result Z :=
  _ ← relation (sq.d_From d);
  where_id (sq.d_WhereParts d).

Definition delete_ (d : sq.deleteData) (db : Pool) : result Result * Pool :=
  match delete_analyse d with
  | Err e => (Err e, db)
  | Ok id =>
      match users db !! id with
      | None => (Ok {| result_rows := []; RowsAffected := 0 |}, db)
      | Some _ =>
          (Ok {| result_rows := []; RowsAffected := 1 |},
           with_users (delete id (users db)) db)
      end
  end.

(** A statement that squirrel refuses to render has no text to run. *)
Definition run (now : Z) (s : sq.Statement) (db : Pool) : result Result * Pool :=
  match sq.ToSql s with
  | Err e => (Err "syntax error", db)
  | Ok _ =>
      match s with
      | sq.SInsert d => insert now d db
      | sq.SSelect d => select d db
      | sq.SUpdate d => update now d db
      | sq.SDelete d => delete_ d db
      end
  end.

(** *** The calls of the pool *)

(** One round trip: the statement is recorded, and run unless the call
    itself fails. *)
Definition send (e : Env) (s : sq.Statement) (db : Pool) : result Result * Pool :=
  let db := record s db in
  match env_fault e with
  | Some err => (Err err, db)
  | None => run (env_now e) s db
  end.

(** [QueryRow]: the first row of the result; [ErrNoRows] without one. *)
Definition QueryRow (e : Env) (s : sq.Statement) (db : Pool) : result (list Datum) * Pool :=
  let '(r, db') := send e s db in
  (res ← r;
   match result_rows res with
   | [] => Err ErrNoRows
   | row :: _ => Ok row
   end, db').

(** [Exec]: the command tag, here the number of rows affected. *)
Definition Exec (e : Env) (s : sq.Statement) (db : Pool) : result Z * Pool :=
  let '(r, db') := send e s db in
  (res ← r; Ok (RowsAffected res), db').

(** *** Scanning a column into a destination *)

Definition scan_int64 (d : Datum) : result Z :=
  match d with
  | DInt z => Ok z
  | _ => Err "cannot scan into *int64"
  end.

Definition scan_string (d : Datum) : result string :=
  match d with
  | DText s => Ok s
  | _ => Err "cannot scan into *string"
  end.

Definition scan_Time (d : Datum) : result Z :=
  match d with
  | DTimestamp ms => Ok ms
  | _ => Err "cannot scan into *time.Time"
  end.

(** A destination that is a [sql.Scanner] is handed the text of the
    column.  The text of a timestamp is not embedded: the handlers scan
    timestamps into times only. *)
Definition scan_Scanner {A} (scan : sql.Value → result A) (d : Datum) : result A :=
  match d with
  | DText s => scan (sql.VString s)
  | DInt z => scan (sql.VString (pretty z))
  | DTimestamp _ => Err "the text of a timestamp is not embedded"
  end.

Definition arity_error : error :=
  "number of field descriptions must equal number of destinations".

End pgx.

(** ** Packages [codes], [status] and [timestamppb] *)

Module codes.

Inductive Code : Set :=
| OK | Canceled | Unknown | InvalidArgument | DeadlineExceeded | NotFound
| AlreadyExists | PermissionDenied | ResourceExhausted | FailedPrecondition
| Aborted | OutOfRange | Unimplemented | Internal | Unavailable | DataLoss
| Unauthenticated.

#[global] Instance Code_eq_dec : EqDecision Code.
Proof. solve_decision. Defined.

End codes.

Module status.

Record Status := { Code : codes.Code; Message : string }.

(** [status.Errorf(c, "<prefix>: %v", err)] *)
Definition Errorf (c : codes.Code) (prefix : string) (err : error) : Status :=
  {| Code := c; Message := prefix +:+ ": " +:+ err |}.

End status.

Module timestamppb.

(** [timestamppb.New], for a time in milliseconds since the epoch. *)
Definition New (ms : Z) : user_v1.Timestamp :=
  {| user_v1.Seconds := ms `div` 1000; user_v1.Nanos := (ms `mod` 1000) * 1000000 |}.

End timestamppb.

(** What a handler returns: a response, or the status that stands for
    its error. *)
Inductive reply (A : Type) : Type :=
| Reply (a : A)
| Fail (st : status.Status).
Arguments Reply {A} a.
Arguments Fail {A} st.

(** ** The server *)

Section server.

Variable base64Encode : string → string.
Variable digest : string → Z → string → string.

Definition hashAndSalt (e : Env) (pwd : string) : result string :=
  hash ← bcrypt.GenerateFromPassword base64Encode digest (env_rand e) pwd bcrypt.MinCost;
  Ok hash.

(** The statement [Create] builds, for the hashed password. *)
Definition Create_builder (password : string) (req : user_v1.CreateRequest) : sq.insertData :=
  sq.Suffix "RETURNING id"
    (sq.i_Placeholder sq.Dollar
       (sq.Values
          [sq.Val (sq.AString (Strings.TrimSpace (user_v1.cr_Name req)));
           sq.Val (sq.AString (Strings.ToLower (Strings.TrimSpace (user_v1.cr_Email req))));
           sq.Val (sq.AString password);
           sq.Val (sq.AString (Strings.ToLower (user_v1.String_ (user_v1.cr_Role req))))]
          (sq.Columns ["name"; "email"; "password"; "role"] (sq.Insert "users")))).

Definition Create (e : Env) (db : pgx.Pool) (req : user_v1.CreateRequest)
  : reply user_v1.CreateResponse * pgx.Pool :=
  match hashAndSalt e (user_v1.cr_Password req) with
  | Err err => (Fail (status.Errorf codes.Internal "failed to hash password" err), db)
  | Ok password =>
      let stmt := sq.SInsert (Create_builder password req) in
      match sq.ToSql stmt with
      | Err err => (Fail (status.Errorf codes.Internal "failed to build query" err), db)
      | Ok _ =>
          let '(row, db') := pgx.QueryRow e stmt db in
          let scanned :=
            row ← row;
            match row with
            | [c] => pgx.scan_int64 c
            | _ => Err pgx.arity_error
            end in
          match scanned with
          | Err err => (Fail (status.Errorf codes.Internal "failed to insert user" err), db')
          | Ok userID => (Reply {| user_v1.cresp_Id := userID |}, db')
          end
      end
  end.

Definition Get_builder (req : user_v1.GetRequest) : sq.selectData :=
  sq.s_Placeholder sq.Dollar
    (sq.s_Where {| sq.eq_column := "id"; sq.eq_value := sq.AInt64 (user_v1.gr_Id req) |}
       (sq.From_ "users"
          (sq.Select ["id"; "name"; "email"; "role"; "created_at"; "updated_at"]))).

Definition Get (e : Env) (db : pgx.Pool) (req : user_v1.GetRequest)
  : reply user_v1.GetResponse * pgx.Pool :=
  let stmt := sq.SSelect (Get_builder req) in
  match sq.ToSql stmt with
  | Err err => (Fail (status.Errorf codes.Internal "failed to build query" err), db)
  | Ok _ =>
      let '(row, db') := pgx.QueryRow e stmt db in
      let scanned :=
        row ← row;
        match row with
        | [c1; c2; c3; c4; c5; c6] =>
            id ← pgx.scan_int64 c1;
            name ← pgx.scan_string c2;
            email ← pgx.scan_string c3;
            role ← pgx.scan_Scanner userRole_Scan c4;
            createdAt ← pgx.scan_Time c5;
            updatedAt ← pgx.scan_Time c6;
            Ok {| user_v1.g_Id := id;
                  user_v1.g_Name := name;
                  user_v1.g_Email := email;
                  user_v1.g_Role := role;
                  user_v1.g_CreatedAt := timestamppb.New createdAt;
                  user_v1.g_UpdatedAt := timestamppb.New updatedAt |}
        | _ => Err pgx.arity_error
        end in
      match scanned with
      | Err err => (Fail (status.Errorf codes.Internal "failed to select user" err), db')
      | Ok resp => (Reply resp, db')
      end
  end.

(** The statement [Update] builds: the clauses are appended in the
    order of the source. *)
Definition Update_builder (req : user_v1.UpdateRequest) : sq.updateData :=
  let updateBuilder :=
    sq.u_Placeholder sq.Dollar
      (sq.u_Where {| sq.eq_column := "id"; sq.eq_value := sq.AInt64 (user_v1.ur_Id req) |}
         (sq.Update "users")) in
  let updateBuilder :=
    match user_v1.ur_Email req with
    | Some v =>
        let value := Strings.TrimSpace v in
        if bool_decide (value ≠ "") then
          sq.Set_ "email" (sq.Val (sq.AString (Strings.ToLower value))) updateBuilder
        else updateBuilder
    | None => updateBuilder
    end in
  let updateBuilder :=
    match user_v1.ur_Name req with
    | Some v =>
        let value := Strings.TrimSpace v in
        if bool_decide (value ≠ "") then
          sq.Set_ "name" (sq.Val (sq.AString value)) updateBuilder
        else updateBuilder
    | None => updateBuilder
    end in
  let updateBuilder :=
    if bool_decide (user_v1.ur_Role req ≠ user_v1.Role_UNSPECIFIED) then
      sq.Set_ "role"
        (sq.Val (sq.AString (Strings.ToLower (user_v1.String_ (user_v1.ur_Role req)))))
        updateBuilder
    else updateBuilder in
  sq.Set_ "updated_at" (sq.Expr "NOW()") updateBuilder.

Definition Update (e : Env) (db : pgx.Pool) (req : user_v1.UpdateRequest)
  : reply user_v1.Empty * pgx.Pool :=
  let stmt := sq.SUpdate (Update_builder req) in
  match sq.ToSql stmt with
  | Err err => (Fail (status.Errorf codes.Internal "failed to build query" err), db)
  | Ok _ =>
      match pgx.Exec e stmt db with
      | (Err err, db') => (Fail (status.Errorf codes.Internal "failed to update user" err), db')
      | (Ok ct, db') => (Reply user_v1.Empty_, db')
      end
  end.

Definition Delete_builder (req : user_v1.DeleteRequest) : sq.deleteData :=
  sq.d_Placeholder sq.Dollar
    (sq.d_Where {| sq.eq_column := "id"; sq.eq_value := sq.AInt64 (user_v1.dr_Id req) |}
       (sq.Delete "users")).

Definition Delete (e : Env) (db : pgx.Pool) (req : user_v1.DeleteRequest)
  : reply user_v1.Empty * pgx.Pool :=
  let stmt := sq.SDelete (Delete_builder req) in
  match sq.ToSql stmt with
  | Err err => (Fail (status.Errorf codes.Internal "failed to build query" err), db)
  | Ok _ =>
      match pgx.Exec e stmt db with
      | (Err err, db') => (Fail (status.Errorf codes.Internal "failed to delete user" err), db')
      | (Ok ct, db') => (Reply user_v1.Empty_, db')
      end
  end.

End server.

(** ** What the statements of the handlers stand for *)

(** The row [Create] asks the store to insert. *)
Definition Create_row (now : Z) (password : string) (req : user_v1.CreateRequest)
  : pgx.users_row :=
  {| pgx.name := Strings.TrimSpace (user_v1.cr_Name req);
     pgx.email := Strings.ToLower (Strings.TrimSpace (user_v1.cr_Email req));
     pgx.password := password;
     pgx.role := Strings.ToLower (user_v1.String_ (user_v1.cr_Role req));
     pgx.created_at := now;
     pgx.updated_at := now |}.

Definition Create_columns : list string := ["name"; "email"; "password"; "role"].

Definition Get_response (id : Z) (r : pgx.users_row) : user_v1.GetResponse :=
  {| user_v1.g_Id := id;
     user_v1.g_Name := pgx.name r;
     user_v1.g_Email := pgx.email r;
     user_v1.g_Role :=
       default user_v1.Role_UNSPECIFIED (user_v1.Role_value !! Strings.ToUpper (pgx.role r));
     user_v1.g_CreatedAt := timestamppb.New (pgx.created_at r);
     user_v1.g_UpdatedAt := timestamppb.New (pgx.updated_at r) |}.

Definition clause (col : string) (v : sq.value) : sq.setClause :=
  {| sq.column := col; sq.value_ := v |}.

Definition email_clause (req : user_v1.UpdateRequest) : list sq.setClause :=
  match user_v1.ur_Email req with
  | Some v =>
      if bool_decide (Strings.TrimSpace v ≠ "") then
        [clause "email" (sq.Val (sq.AString (Strings.ToLower (Strings.TrimSpace v))))]
      else []
  | None => []
  end.

Definition name_clause (req : user_v1.UpdateRequest) : list sq.setClause :=
  match user_v1.ur_Name req with
  | Some v =>
      if bool_decide (Strings.TrimSpace v ≠ "") then
        [clause "name" (sq.Val (sq.AString (Strings.TrimSpace v)))]
      else []
  | None => []
  end.

Definition role_clause (req : user_v1.UpdateRequest) : list sq.setClause :=
  if bool_decide (user_v1.ur_Role req ≠ user_v1.Role_UNSPECIFIED) then
    [clause "role"
       (sq.Val (sq.AString (Strings.ToLower (user_v1.String_ (user_v1.ur_Role req)))))]
  else [].

Definition updated_at_clause : sq.setClause := clause "updated_at" (sq.Expr "NOW()").

(** What the statement of [Update] does to the row it addresses. *)
Definition Update_effect (now : Z) (req : user_v1.UpdateRequest) (r : pgx.users_row)
  : pgx.users_row :=
  let r :=
    match user_v1.ur_Email req with
    | Some v =>
        if bool_decide (Strings.TrimSpace v ≠ "") then
          pgx.set_email (Strings.ToLower (Strings.TrimSpace v)) r
        else r
    | None => r
    end in
  let r :=
    match user_v1.ur_Name req with
    | Some v =>
        if bool_decide (Strings.TrimSpace v ≠ "") then pgx.set_name (Strings.TrimSpace v) r
        else r
    | None => r
    end in
  let r :=
    if bool_decide (user_v1.ur_Role req ≠ user_v1.Role_UNSPECIFIED) then
      pgx.set_role (Strings.ToLower (user_v1.String_ (user_v1.ur_Role req))) r
    else r in
  pgx.set_updated_at now r.

(** ** Failures *)

(** A reply is a response or a status of the internal kind. *)
Definition only_Internal {A} (r : reply A) : Prop :=
  match r with
  | Reply _ => True
  | Fail st => status.Code st = codes.Internal
  end.

(** The pool was asked to run at most one statement between two stores. *)
Definition at_most_one_statement (db db' : pgx.Pool) : Prop :=
  pgx.journal db' = pgx.journal db ∨ ∃ s, pgx.journal db' = s :: pgx.journal db.

(** ** Concrete inputs *)

(** Stand-ins for the two primitives of bcrypt, to run the handlers on
    concrete requests.  They have the lengths of the encodings of the
    library and nothing else in common with them; no statement below
    depends on what they return. *)
Definition example_base64Encode (unencodedSalt : string) : string :=
  "abcdefghijklmnopqrstuv".

Definition example_digest (password : string) (cost : Z) (salt : string) : string :=
  "ABCDEFGHIJKLMNOPQRSTUVWXYZ01234".

Definition example_env : Env :=
  {| env_now := 1698762746123; env_fault := None; env_rand := Ok "0123456789abcdef" |}.

Definition empty_store : pgx.Pool :=
  {| pgx.users := ∅; pgx.users_id_seq := 0; pgx.journal := [] |}.

Definition example_create (password : string) (role : user_v1.Role) : user_v1.CreateRequest :=
  {| user_v1.cr_Name := " Bob ";
     user_v1.cr_Email := " Bob@Example.org";
     user_v1.cr_Password := password;
     user_v1.cr_Role := role |}.

(** A store with one user, of id 1. *)
Definition one_user_store : pgx.Pool :=
  snd (Create example_base64Encode example_digest example_env empty_store
         (example_create "secret" user_v1.Role_USER)).

(** ** Trimmed strings *)


(** ** The constraints of the table *)

Definition unique_on {A} (f : pgx.users_row → A) (t : gmap Z pgx.users_row) : Prop :=
  ∀ i j r1 r2, t !! i = Some r1 → t !! j = Some r2 → f r1 = f r2 → i = j.

(** A store that satisfies what the migration declares: the two [UNIQUE]
    constraints, the type of the role column, and ids that were drawn from
    the sequence. *)
Record consistent (db : pgx.Pool) : Prop := {
  names_unique : unique_on pgx.name (pgx.users db);
  emails_unique : unique_on pgx.email (pgx.users db);
  roles_labelled : ∀ i r, pgx.users db !! i = Some r → pgx.role r ∈ pgx.user_role;
  ids_drawn : ∀ i r, pgx.users db !! i = Some r → i ≤ pgx.users_id_seq db
}.

(** ** [main]: starting the server *)

Module startup.

(** What [main] does, in order.  [Printf] carries the format of the log
    line and its argument; [Exit] ends the process at once, as
    [log.Fatalf] does after writing its line: deferred calls do not run. *)
Inductive event : Type :=
| Load (path : string)
| NewGRPCConfig
| NewPGConfig
| Listen (network address : string)
| NewPool (dsn : string)
| RegisterUserV1Server
| Printf (format arg : string)
| Serve
| Close
| Exit (status : Z).

#[global] Instance event_eq_dec : EqDecision event.
Proof. solve_decision. Defined.

(** What the calls of [main] return: the packages [config], [net],
    [pgxpool] and [grpc] are not embedded. *)
Record Outcomes := {
  o_Load : string → option error;
  o_NewGRPCConfig : result string;
  o_NewPGConfig : result string;
  o_Listen : string → option error;
  o_New : string → option error;
  o_Serve : option error
}.

Definition Fatalf (format : string) (err : error) : list event :=
  [Printf format err; Exit 1].

(** [main] of the service; [envPath] is the value of the flag, and the
    listener prints the address it was given. *)
Definition main (envPath : string) (o : Outcomes) : list event :=
  Load envPath ::
  match o_Load o envPath with
  | Some err => Fatalf "failed to load config: %v" err
  | None =>
      NewGRPCConfig ::
      match o_NewGRPCConfig o with
      | Err err => Fatalf "failed to get grpc config: %v" err
      | Ok address =>
          NewPGConfig ::
          match o_NewPGConfig o with
          | Err err => Fatalf "failed to get pg config: %v" err
          | Ok dsn =>
              Listen "tcp" address ::
              match o_Listen o address with
              | Some err => Fatalf "failed to listen: %v" err
              | None =>
                  NewPool dsn ::
                  match o_New o dsn with
                  | Some err => Fatalf "unable to create connection pool: %v" err
                  | None =>
                      RegisterUserV1Server ::
                      Printf "server listening at %v" address ::
                      Serve ::
                      match o_Serve o with
                      | Some err => Fatalf "failed to serve: %v" err
                      | None => [Close]
                      end
                  end
              end
          end
      end
  end.

(** Every call of [main] succeeded and [Serve] returned without error. *)
Definition all_well (envPath : string) (o : Outcomes) : Prop :=
  o_Load o envPath = None ∧
  ∃ address dsn,
    o_NewGRPCConfig o = Ok address ∧ o_NewPGConfig o = Ok dsn ∧
    o_Listen o address = None ∧ o_New o dsn = None ∧ o_Serve o = None.

End startup.

(** ** The migration *)

Module migration.

Inductive column_type : Type :=
| Builtin (name : string)
| Named (name : string).

#[global] Instance column_type_eq_dec : EqDecision column_type.
Proof. solve_decision. Defined.

Record column := {
  col_name : string;
  col_type : column_type;
  col_not_null : bool;
  col_default : option string
}.

Inductive table_constraint : Type :=
| PrimaryKey (name col : string)
| Unique (name col : string).

Record table := { columns : list column; constraints : list table_constraint }.

Inductive statement : Type :=
| CreateEnum (name : string) (labels : list string)
| CreateTable (name : string) (t : table)
| DropTable (name : string)
| DropType (name : string).

(** The enumerated types and the tables of a database. *)
Record catalog := {
  types : gmap string (list string);
  tables : gmap string table
}.

Definition uses (ty : string) (t : table) : bool :=
  bool_decide (Exists (λ c, col_type c = Named ty) (columns t)).

Definition taken (name : string) (c : catalog) : bool :=
  bool_decide (is_Some (types c !! name)) || bool_decide (is_Some (tables c !! name)).

Definition named_types (t : table) : list string :=
  omap (λ c, match col_type c with Named n => Some n | Builtin _ => None end) (columns t).

(** A type and a table cannot have the same name; a table needs the
    types of its columns; a type in use cannot be dropped. *)
Definition exec (s : statement) (c : catalog) : result catalog :=
  match s with
  | CreateEnum name labels =>
      if taken name c then Err ("type " +:+ name +:+ " already exists")
      else Ok {| types := <[name := labels]> (types c); tables := tables c |}
  | CreateTable name t =>
      if taken name c then Err ("relation " +:+ name +:+ " already exists")
      else if negb (forallb (λ n, bool_decide (is_Some (types c !! n))) (named_types t)) then
        Err "type does not exist"
      else Ok {| types := types c; tables := <[name := t]> (tables c) |}
  | DropTable name =>
      if bool_decide (is_Some (tables c !! name)) then
        Ok {| types := types c; tables := delete name (tables c) |}
      else Err ("table " +:+ name +:+ " does not exist")
  | DropType name =>
      if negb (bool_decide (is_Some (types c !! name))) then
        Err ("type " +:+ name +:+ " does not exist")
      else if bool_decide (map_Exists (λ _ t, uses name t = true) (tables c)) then
        Err ("cannot drop type " +:+ name +:+ " because other objects depend on it")
      else Ok {| types := delete name (types c); tables := tables c |}
  end.

(** The statements of one direction run in order; the first error ends
    the run. *)
Fixpoint run (l : list statement) (c : catalog) : result catalog :=
  match l with
  | [] => Ok c
  | s :: rest => c' ← exec s c; run rest c'
  end.

Definition users_table : table :=
  {| columns :=
       [{| col_name := "id"; col_type := Builtin "SERIAL"; col_not_null := true;
           col_default := None |};
        {| col_name := "name"; col_type := Builtin "TEXT"; col_not_null := true;
           col_default := None |};
        {| col_name := "email"; col_type := Builtin "TEXT"; col_not_null := true;
           col_default := None |};
        {| col_name := "password"; col_type := Builtin "TEXT"; col_not_null := true;
           col_default := None |};
        {| col_name := "role"; col_type := Named "user_role"; col_not_null := true;
           col_default := None |};
        {| col_name := "created_at"; col_type := Builtin "TIMESTAMP(3)"; col_not_null := true;
           col_default := Some "CURRENT_TIMESTAMP" |};
        {| col_name := "updated_at"; col_type := Builtin "TIMESTAMP(3)"; col_not_null := true;
           col_default := Some "CURRENT_TIMESTAMP" |}];
     constraints :=
       [PrimaryKey "users_pkey" "id"; Unique "users_email_key" "email";
        Unique "users_name_key" "name"] |}.


Definition Up : list statement :=
  [CreateEnum "user_role" ["user"; "admin"]; CreateTable "users" users_table].


End migration.

(** * Properties *)

(** ** The embedding on concrete inputs *)

Example scan_user : userRole_Scan (sql.VString "user") = Ok user_v1.Role_USER.
Proof. vm_compute. reflexivity. Qed.

Example scan_Admin : userRole_Scan (sql.VString "Admin") = Ok user_v1.Role_ADMIN.
Proof. vm_compute. reflexivity. Qed.

Example scan_other : userRole_Scan (sql.VString "root") = Ok user_v1.Role_UNSPECIFIED.
Proof. vm_compute. reflexivity. Qed.

Example trim_example : Strings.TrimSpace "  Bob Ray 	" = "Bob Ray".
Proof. reflexivity. Qed.

Example insert_text :
  sq.insert_ToSql
    (sq.Suffix "RETURNING id" (sq.i_Placeholder sq.Dollar
       (sq.Values [sq.Val (sq.AString "n"); sq.Val (sq.AString "e");
                   sq.Val (sq.AString "p"); sq.Val (sq.AString "user")]
          (sq.Columns ["name"; "email"; "password"; "role"] (sq.Insert "users")))))
  = Ok ("INSERT INTO users (name,email,password,role) VALUES ($1,$2,$3,$4) RETURNING id",
        [sq.AString "n"; sq.AString "e"; sq.AString "p"; sq.AString "user"]).
Proof. vm_compute. reflexivity. Qed.

Example update_text :
  sq.update_ToSql
    (sq.Set_ "updated_at" (sq.Expr "NOW()")
       (sq.Set_ "role" (sq.Val (sq.AString "admin"))
          (sq.u_Placeholder sq.Dollar
             (sq.u_Where {| sq.eq_column := "id"; sq.eq_value := sq.AInt64 7 |}
                (sq.Update "users")))))
  = Ok ("UPDATE users SET role = $1, updated_at = NOW() WHERE id = $2",
        [sq.AString "admin"; sq.AInt64 7]).
Proof. vm_compute. reflexivity. Qed.

Example update_without_clause :
  sq.update_ToSql (sq.u_Where {| sq.eq_column := "id"; sq.eq_value := sq.AInt64 7 |}
                     (sq.Update "users"))
  = Err "update statements must have at least one Set clause".
Proof. vm_compute. reflexivity. Qed.

(** ** The role mapping *)

Lemma Role_value_Some (k : string) (r : user_v1.Role) :
  user_v1.Role_value !! k = Some r ↔ k = user_v1.Role_name r.
Proof.
  unfold user_v1.Role_value. cbn [list_to_map foldr uncurry fst snd].
  rewrite !lookup_insert_Some, lookup_empty.
  destruct r; cbn [user_v1.Role_name]; split.
  - intros [[? ?]|[? [[? ?]|[? [[? ?]|[? ?]]]]]]; congruence.
  - intros ->. left. done.
  - intros [[? ?]|[? [[? ?]|[? [[? ?]|[? ?]]]]]]; congruence.
  - intros ->. right. split; [done|]. left. done.
  - intros [[? ?]|[? [[? ?]|[? [[? ?]|[? ?]]]]]]; congruence.
  - intros ->. right. split; [done|]. right. split; [done|]. left. done.
Qed.

Lemma Role_value_None (k : string) :
  user_v1.Role_value !! k = None ↔ ∀ r, k ≠ user_v1.Role_name r.
Proof.
  split.
  - intros Hn r Hk. apply Role_value_Some in Hk. congruence.
  - intros Hn. destruct (user_v1.Role_value !! k) as [r|] eqn:E; [|done].
    apply Role_value_Some in E. destruct (Hn r E).
Qed.

Lemma Scan_string (s : string) :
  userRole_Scan (sql.VString s)
  = Ok (default user_v1.Role_UNSPECIFIED (user_v1.Role_value !! Strings.ToUpper s)).
Proof.
  change (userRole_Scan (sql.VString s))
    with (match user_v1.Role_value !! Strings.ToUpper s with
          | Some val => Ok val
          | None => Ok user_v1.Role_UNSPECIFIED
          end).
  destruct (user_v1.Role_value !! Strings.ToUpper s); reflexivity.
Qed.

Lemma Scan_bytes (b : string) :
  userRole_Scan (sql.VBytes b) = userRole_Scan (sql.VString b).
Proof. reflexivity. Qed.

(** C2: for every string read from the role column, handed to the scan
    as text or as bytes, the role mapping of [Get] returns a role and no
    error; a string whose upper-cased form is not the name of a role is
    mapped to the unspecified role. *)
Theorem Scan_string_total (s : string) :
  (∃ r, userRole_Scan (sql.VString s) = Ok r ∧ userRole_Scan (sql.VBytes s) = Ok r) ∧
  ((∀ r, Strings.ToUpper s ≠ user_v1.Role_name r) →
   userRole_Scan (sql.VString s) = Ok user_v1.Role_UNSPECIFIED ∧
   userRole_Scan (sql.VBytes s) = Ok user_v1.Role_UNSPECIFIED).
Proof.
  rewrite Scan_bytes, Scan_string. split.
  - eexists. split; reflexivity.
  - intros Hn. apply Role_value_None in Hn. rewrite Hn. split; reflexivity.
Qed.

Lemma Scan_string_total_witness :
  (∀ r, Strings.ToUpper "root" ≠ user_v1.Role_name r) ∧
  userRole_Scan (sql.VString "root") = Ok user_v1.Role_UNSPECIFIED.
Proof.
  assert (H : ∀ r, Strings.ToUpper "root" ≠ user_v1.Role_name r)
    by (intros r; destruct r; vm_compute; discriminate).
  split; [exact H|].
  exact (proj1 (proj2 (Scan_string_total "root") H)).
Defined.

(** C9: a NULL in the role column, the one value for which the null
    string reports [Valid = false], is scanned to the unspecified role
    without an error. *)
Theorem Scan_null (v : sql.Value) (ns : sql.NullString) :
  sql.NullString_Scan v = Ok ns →
  sql.Valid ns = false →
  v = sql.VNil ∧ userRole_Scan v = Ok user_v1.Role_UNSPECIFIED.
Proof.
  intros Hs Hv. unfold userRole_Scan. rewrite Hs. cbn. rewrite Hv. cbn.
  split; [|reflexivity].
  destruct v; cbn in Hs; [reflexivity| | | | |];
    try (injection Hs as <-; cbn in Hv; discriminate).
  discriminate.
Qed.

Lemma Scan_null_witness :
  userRole_Scan sql.VNil = Ok user_v1.Role_UNSPECIFIED.
Proof.
  exact (proj2 (Scan_null sql.VNil {| sql.String_ := ""; sql.Valid := false |}
                  eq_refl eq_refl)).
Defined.

(** When the null string fails to convert the value, the scan of the
    role returns that error. *)
Lemma Scan_error (v : sql.Value) (err : error) :
  sql.NullString_Scan v = Err err → userRole_Scan v = Err err.
Proof. intros H. unfold userRole_Scan. rewrite H. reflexivity. Qed.


(** ** The statements the handlers build *)

Lemma Create_ToSql (password : string) (req : user_v1.CreateRequest) :
  sq.ToSql (sq.SInsert (Create_builder password req))
  = Ok ("INSERT INTO users (name,email,password,role) VALUES ($1,$2,$3,$4) RETURNING id",
        [sq.AString (Strings.TrimSpace (user_v1.cr_Name req));
         sq.AString (Strings.ToLower (Strings.TrimSpace (user_v1.cr_Email req)));
         sq.AString password;
         sq.AString (Strings.ToLower (user_v1.String_ (user_v1.cr_Role req)))]).
Proof. reflexivity. Qed.

Lemma Get_ToSql (req : user_v1.GetRequest) :
  sq.ToSql (sq.SSelect (Get_builder req))
  = Ok ("SELECT id, name, email, role, created_at, updated_at FROM users WHERE id = $1",
        [sq.AInt64 (user_v1.gr_Id req)]).
Proof. reflexivity. Qed.

Lemma Delete_ToSql (req : user_v1.DeleteRequest) :
  sq.ToSql (sq.SDelete (Delete_builder req))
  = Ok ("DELETE FROM users WHERE id = $1", [sq.AInt64 (user_v1.dr_Id req)]).
Proof. reflexivity. Qed.

Lemma Create_analyse (now id : Z) (password : string) (req : user_v1.CreateRequest) :
  pgx.insert_analyse now id (Create_builder password req)
  = if bool_decide (user_v1.cr_Role req = user_v1.Role_UNSPECIFIED) then
      Err "invalid input value for enum user_role: unspecified"
    else
      Ok (λ r, pgx.set_role (Strings.ToLower (user_v1.String_ (user_v1.cr_Role req)))
                 (pgx.set_password password
                    (pgx.set_email (Strings.ToLower (Strings.TrimSpace (user_v1.cr_Email req)))
                       (pgx.set_name (Strings.TrimSpace (user_v1.cr_Name req)) r))),
          [[pgx.DInt id]]).
Proof. destruct req as [n m p r]. destruct r; reflexivity. Qed.

(** ** [Create], step by step *)

Lemma Create_unfold base64Encode digest (e : Env) (db : pgx.Pool) (req : user_v1.CreateRequest) :
  Create base64Encode digest e db req
  = match hashAndSalt base64Encode digest e (user_v1.cr_Password req) with
    | Err err => (Fail (status.Errorf codes.Internal "failed to hash password" err), db)
    | Ok password =>
        let db1 := pgx.record (sq.SInsert (Create_builder password req)) db in
        match env_fault e with
        | Some err => (Fail (status.Errorf codes.Internal "failed to insert user" err), db1)
        | None =>
            if bool_decide (user_v1.cr_Role req = user_v1.Role_UNSPECIFIED) then
              (Fail (status.Errorf codes.Internal "failed to insert user"
                       "invalid input value for enum user_role: unspecified"), db1)
            else
              let id := pgx.users_id_seq db + 1 in
              match pgx.insert_row id Create_columns (Create_row (env_now e) password req)
                      [[pgx.DInt id]] db1 with
              | (Err err, db') =>
                  (Fail (status.Errorf codes.Internal "failed to insert user" err), db')
              | (Ok _, db') => (Reply {| user_v1.cresp_Id := id |}, db')
              end
        end
    end.
Proof.
  unfold Create.
  destruct (hashAndSalt base64Encode digest e (user_v1.cr_Password req)) as [password|err];
    [|reflexivity].
  cbv zeta. rewrite Create_ToSql.
  unfold pgx.QueryRow, pgx.send. destruct (env_fault e) as [err|]; [reflexivity|].
  unfold pgx.run. rewrite Create_ToSql. unfold pgx.insert.
  change (pgx.users_id_seq (pgx.record (sq.SInsert (Create_builder password req)) db))
    with (pgx.users_id_seq db).
  rewrite Create_analyse.
  case_bool_decide; [reflexivity|].
  change (sq.Columns_ (Create_builder password req)) with Create_columns.
  change (pgx.set_role _ _) with (Create_row (env_now e) password req).
  unfold pgx.insert_row.
  repeat match goal with
         | |- context [if ?b then _ else _] => destruct b
         end; reflexivity.
Qed.

Lemma insert_row_Ok (id : Z) (r : pgx.users_row) (rows : list (list pgx.Datum))
    (db : pgx.Pool) (res : pgx.Result) (db' : pgx.Pool) :
  pgx.insert_row id Create_columns r rows db = (Ok res, db') →
  pgx.users db !! id = None ∧
  pgx.email_free id (pgx.email r) (pgx.users db) = true ∧
  pgx.name_free id (pgx.name r) (pgx.users db) = true ∧
  db' = pgx.with_users (<[id := r]> (pgx.users db)) (pgx.with_seq id db).
Proof.
  unfold pgx.insert_row.
  change (negb (forallb _ pgx.not_null_columns)) with false. cbv iota.
  case_bool_decide as Hk; [discriminate|].
  destruct (pgx.email_free id (pgx.email r) (pgx.users db)); [|discriminate].
  destruct (pgx.name_free id (pgx.name r) (pgx.users db)); [|discriminate].
  cbn [negb]. intros [= <- <-].
  split; [|done].
  destruct (pgx.users db !! id) eqn:E; [|done].
  destruct Hk. eauto.
Qed.

Lemma insert_row_Err (id : Z) (cols : list string) (r : pgx.users_row)
    (rows : list (list pgx.Datum)) (db : pgx.Pool) (err : error) (db' : pgx.Pool) :
  pgx.insert_row id cols r rows db = (Err err, db') → db' = pgx.with_seq id db.
Proof.
  unfold pgx.insert_row.
  repeat match goal with
         | |- context [if ?b then _ else _] => destruct b
         end; intros [= <- <-] || discriminate; reflexivity.
Qed.

(** What a successful [Create] has done. *)
Lemma Create_Reply_inv base64Encode digest (e : Env) (db db' : pgx.Pool)
    (req : user_v1.CreateRequest) (resp : user_v1.CreateResponse) :
  Create base64Encode digest e db req = (Reply resp, db') →
  ∃ password,
    hashAndSalt base64Encode digest e (user_v1.cr_Password req) = Ok password ∧
    env_fault e = None ∧
    user_v1.cr_Role req ≠ user_v1.Role_UNSPECIFIED ∧
    resp = {| user_v1.cresp_Id := pgx.users_id_seq db + 1 |} ∧
    pgx.users db !! (pgx.users_id_seq db + 1) = None ∧
    db' = pgx.with_users
            (<[pgx.users_id_seq db + 1 := Create_row (env_now e) password req]> (pgx.users db))
            (pgx.with_seq (pgx.users_id_seq db + 1)
               (pgx.record (sq.SInsert (Create_builder password req)) db)).
Proof.
  rewrite Create_unfold.
  destruct (hashAndSalt base64Encode digest e (user_v1.cr_Password req)) as [password|err];
    [|discriminate].
  cbv zeta. destruct (env_fault e); [discriminate|].
  case_bool_decide as Hr; [discriminate|].
  destruct (pgx.insert_row _ _ _ _ _) as [[res|err] db1] eqn:E; [|discriminate].
  intros [= <- <-]. apply insert_row_Ok in E as (Hk & _ & _ & ->).
  exists password. done.
Qed.

(** ** [Get], step by step *)

Lemma Get_unfold (e : Env) (db : pgx.Pool) (req : user_v1.GetRequest) :
  Get e db req
  = let db1 := pgx.record (sq.SSelect (Get_builder req)) db in
    match env_fault e with
    | Some err => (Fail (status.Errorf codes.Internal "failed to select user" err), db1)
    | None =>
        match pgx.users db !! user_v1.gr_Id req with
        | None => (Fail (status.Errorf codes.Internal "failed to select user" pgx.ErrNoRows), db1)
        | Some r => (Reply (Get_response (user_v1.gr_Id req) r), db1)
        end
    end.
Proof.
  unfold Get. cbv zeta. rewrite Get_ToSql.
  unfold pgx.QueryRow, pgx.send. destruct (env_fault e) as [err|]; [reflexivity|].
  unfold pgx.run. rewrite Get_ToSql. unfold pgx.select.
  change (pgx.select_analyse (Get_builder req))
    with (Ok (user_v1.gr_Id req,
              λ id r, [pgx.DInt id; pgx.DText (pgx.name r); pgx.DText (pgx.email r);
                       pgx.DText (pgx.role r); pgx.DTimestamp (pgx.created_at r);
                       pgx.DTimestamp (pgx.updated_at r)])).
  cbv iota beta.
  change (pgx.users (pgx.record (sq.SSelect (Get_builder req)) db)) with (pgx.users db).
  destruct (pgx.users db !! user_v1.gr_Id req) as [r|]; [|reflexivity].
  cbn [mbind result_bind pgx.result_rows pgx.scan_int64 pgx.scan_string pgx.scan_Time
       pgx.scan_Scanner].
  rewrite Scan_string. reflexivity.
Qed.

(** ** [Delete], step by step *)

Lemma Delete_unfold (e : Env) (db : pgx.Pool) (req : user_v1.DeleteRequest) :
  Delete e db req
  = let db1 := pgx.record (sq.SDelete (Delete_builder req)) db in
    match env_fault e with
    | Some err => (Fail (status.Errorf codes.Internal "failed to delete user" err), db1)
    | None =>
        match pgx.users db !! user_v1.dr_Id req with
        | None => (Reply user_v1.Empty_, db1)
        | Some _ =>
            (Reply user_v1.Empty_,
             pgx.with_users (delete (user_v1.dr_Id req) (pgx.users db)) db1)
        end
    end.
Proof.
  unfold Delete. cbv zeta. rewrite Delete_ToSql.
  unfold pgx.Exec, pgx.send. destruct (env_fault e) as [err|]; [reflexivity|].
  unfold pgx.run. rewrite Delete_ToSql. unfold pgx.delete_.
  change (pgx.delete_analyse (Delete_builder req)) with (Ok (user_v1.dr_Id req)).
  cbv iota beta.
  change (pgx.users (pgx.record (sq.SDelete (Delete_builder req)) db)) with (pgx.users db).
  destruct (pgx.users db !! user_v1.dr_Id req); reflexivity.
Qed.

(** ** [Update], step by step *)

Lemma Update_builder_eq (req : user_v1.UpdateRequest) :
  Update_builder req
  = {| sq.u_PlaceholderFormat := sq.Dollar;
       sq.Table := "users";
       sq.SetClauses :=
         email_clause req ++ name_clause req ++ role_clause req ++ [updated_at_clause];
       sq.u_WhereParts :=
         [{| sq.eq_column := "id"; sq.eq_value := sq.AInt64 (user_v1.ur_Id req) |}] |}.
Proof.
  unfold Update_builder, email_clause, name_clause, role_clause.
  destruct (user_v1.ur_Email req) as [v|], (user_v1.ur_Name req) as [w|];
    cbv zeta; repeat case_bool_decide; reflexivity.
Qed.

Lemma Update_ToSql (req : user_v1.UpdateRequest) :
  ∃ q, sq.ToSql (sq.SUpdate (Update_builder req)) = Ok q.
Proof.
  rewrite Update_builder_eq. unfold sq.ToSql, sq.update_ToSql.
  cbn [sq.Table sq.SetClauses].
  change (bool_decide ("users" = "")) with false. cbv iota.
  case_bool_decide as Hc; [|eexists; reflexivity].
  rewrite !app_assoc in Hc. apply app_eq_nil in Hc as [_ Hc]. discriminate.
Qed.

Lemma Update_analyse (now : Z) (req : user_v1.UpdateRequest) :
  ∃ set,
    pgx.update_analyse now (Update_builder req) = Ok (user_v1.ur_Id req, set) ∧
    ∀ r, set r = Update_effect now req r.
Proof.
  rewrite Update_builder_eq.
  unfold Update_effect, email_clause, name_clause, role_clause.
  destruct req as [id em nm rl]. cbn [user_v1.ur_Email user_v1.ur_Name user_v1.ur_Role user_v1.ur_Id].
  destruct em as [v|], nm as [w|]; repeat case_bool_decide;
    destruct rl; try congruence;
    (eexists; split; [reflexivity|intros r; reflexivity]).
Qed.

Lemma Update_unfold (e : Env) (db : pgx.Pool) (req : user_v1.UpdateRequest) :
  Update e db req
  = let db1 := pgx.record (sq.SUpdate (Update_builder req)) db in
    match env_fault e with
    | Some err => (Fail (status.Errorf codes.Internal "failed to update user" err), db1)
    | None =>
        match pgx.users db !! user_v1.ur_Id req with
        | None => (Reply user_v1.Empty_, db1)
        | Some r =>
            match pgx.update_row (user_v1.ur_Id req)
                    (sq.column <$> sq.SetClauses (Update_builder req))
                    (Update_effect (env_now e) req r) db1 with
            | (Err err, db') =>
                (Fail (status.Errorf codes.Internal "failed to update user" err), db')
            | (Ok _, db') => (Reply user_v1.Empty_, db')
            end
        end
    end.
Proof.
  unfold Update. cbv zeta.
  destruct (Update_ToSql req) as [q Hq]. rewrite Hq.
  unfold pgx.Exec, pgx.send. destruct (env_fault e) as [err|]; [reflexivity|].
  unfold pgx.run. rewrite Hq. unfold pgx.update.
  destruct (Update_analyse (env_now e) req) as (set & -> & Hset).
  change (pgx.users (pgx.record (sq.SUpdate (Update_builder req)) db)) with (pgx.users db).
  destruct (pgx.users db !! user_v1.ur_Id req) as [r|]; [|reflexivity].
  rewrite Hset.
  destruct (pgx.update_row _ _ _ _) as [[res|err] db']; reflexivity.
Qed.

Example one_user_store_users :
  pgx.users one_user_store
  = {[ 1 := {| pgx.name := "Bob";
               pgx.email := "bob@example.org";
               pgx.password := "$2a$04$abcdefghijklmnopqrstuvABCDEFGHIJKLMNOPQRSTUVWXYZ01234";
               pgx.role := "user";
               pgx.created_at := 1698762746123;
               pgx.updated_at := 1698762746123 |} ]}.
Proof. vm_compute. reflexivity. Qed.

(** ** [Create] *)

Lemma hashAndSalt_eq base64Encode digest (e : Env) (pwd : string) :
  hashAndSalt base64Encode digest e pwd
  = if (72 <? String.length pwd)%nat then Err bcrypt.ErrPasswordTooLong
    else
      match env_rand e with
      | Ok salt =>
          Ok ("$2a$04$" +:+ base64Encode salt +:+ digest pwd 4 (base64Encode salt))
      | Err err => Err err
      end.
Proof.
  unfold hashAndSalt, bcrypt.GenerateFromPassword.
  destruct (72 <? String.length pwd)%nat; [reflexivity|].
  change (bcrypt.MinCost <? bcrypt.MinCost) with false. cbv iota.
  change (bcrypt.MaxCost <? bcrypt.MinCost) with false. cbv iota.
  destruct (env_rand e); reflexivity.
Qed.

(** The hash is formed with the identifier, the cost and the separators
    of the format in front: a password that does not start in this way is
    not stored as it is. *)
Lemma hashAndSalt_prefix base64Encode digest (e : Env) (pwd hash : string) :
  hashAndSalt base64Encode digest e pwd = Ok hash →
  ∃ rest, hash = "$2a$04$" +:+ rest.
Proof.
  rewrite hashAndSalt_eq. destruct (72 <? String.length pwd)%nat; [discriminate|].
  destruct (env_rand e); [|discriminate]. intros [= <-]. eexists. reflexivity.
Qed.

(** What the pool answers to the statement of [Create]. *)
Lemma Create_send (e : Env) (db : pgx.Pool) (password : string) (req : user_v1.CreateRequest) :
  pgx.send e (sq.SInsert (Create_builder password req)) db
  = let db1 := pgx.record (sq.SInsert (Create_builder password req)) db in
    match env_fault e with
    | Some err => (Err err, db1)
    | None =>
        if bool_decide (user_v1.cr_Role req = user_v1.Role_UNSPECIFIED) then
          (Err "invalid input value for enum user_role: unspecified", db1)
        else
          pgx.insert_row (pgx.users_id_seq db + 1) Create_columns
            (Create_row (env_now e) password req) [[pgx.DInt (pgx.users_id_seq db + 1)]] db1
    end.
Proof.
  unfold pgx.send. cbv zeta. destruct (env_fault e); [reflexivity|].
  unfold pgx.run. rewrite Create_ToSql. unfold pgx.insert.
  change (pgx.users_id_seq (pgx.record (sq.SInsert (Create_builder password req)) db))
    with (pgx.users_id_seq db).
  rewrite Create_analyse. case_bool_decide; reflexivity.
Qed.

(** Against C1 as it is stated: with the unspecified role, [Create] of
    a well-formed request on an empty store that answers is refused, for
    the text written for the role is not a label of the type of the
    column. *)
Lemma Create_unspecified_refused :
  let out := Create example_base64Encode example_digest example_env empty_store
               (example_create "secret" user_v1.Role_UNSPECIFIED) in
  fst out
  = Fail {| status.Code := codes.Internal;
            status.Message :=
              "failed to insert user: invalid input value for enum user_role: unspecified" |}
  ∧ pgx.users (snd out) = ∅.
Proof. vm_compute. split; reflexivity. Qed.

(** C1, amended: a [Create] whose role is the unspecified value sends the
    role as the text of that value, which the type of the role column
    does not admit: once the password is hashed, the statement reaches
    the pool, [Create] returns the internal error and no row is
    persisted.  A [Create] that succeeds has the role user or admin and
    persists it as the lower-case form of its name. *)
Theorem Create_role base64Encode digest (e : Env) (db : pgx.Pool)
    (req : user_v1.CreateRequest) :
  (user_v1.cr_Role req = user_v1.Role_UNSPECIFIED →
   (∃ msg, fst (Create base64Encode digest e db req)
           = Fail {| status.Code := codes.Internal; status.Message := msg |}) ∧
   pgx.users (snd (Create base64Encode digest e db req)) = pgx.users db ∧
   ∀ password,
     hashAndSalt base64Encode digest e (user_v1.cr_Password req) = Ok password →
     pgx.journal (snd (Create base64Encode digest e db req))
     = sq.SInsert (Create_builder password req) :: pgx.journal db ∧
     sq.ToSql (sq.SInsert (Create_builder password req))
     = Ok ("INSERT INTO users (name,email,password,role) VALUES ($1,$2,$3,$4) RETURNING id",
           [sq.AString (Strings.TrimSpace (user_v1.cr_Name req));
            sq.AString (Strings.ToLower (Strings.TrimSpace (user_v1.cr_Email req)));
            sq.AString password;
            sq.AString "unspecified"]))
  ∧
  (∀ resp db',
     Create base64Encode digest e db req = (Reply resp, db') →
     ∃ r, pgx.users db' !! user_v1.cresp_Id resp = Some r ∧
          pgx.role r = Strings.ToLower (user_v1.String_ (user_v1.cr_Role req)) ∧
          pgx.role r ∈ pgx.user_role).
Proof.
  split.
  - intros Hr. rewrite Create_unfold.
    destruct (hashAndSalt base64Encode digest e (user_v1.cr_Password req)) as [password|err].
    + cbv zeta. rewrite bool_decide_eq_true_2 by exact Hr.
      destruct (env_fault e); cbn [fst snd]; (split; [eexists; reflexivity|]);
        (split; [reflexivity|]); intros p [= <-]; (split; [reflexivity|]);
        rewrite Create_ToSql, Hr; reflexivity.
    + cbn [fst snd]. split; [eexists; reflexivity|]. split; [reflexivity|].
      intros p Hp. discriminate.
  - intros resp db' Hc.
    apply Create_Reply_inv in Hc as (password & _ & _ & Hr & -> & _ & ->).
    exists (Create_row (env_now e) password req).
    cbn [user_v1.cresp_Id pgx.users pgx.with_users].
    rewrite lookup_insert_eq. split; [reflexivity|]. split; [reflexivity|].
    cbn [Create_row pgx.role].
    destruct (user_v1.cr_Role req); [done| |]; vm_compute; set_solver.
Qed.

Lemma Create_role_witness :
  user_v1.cr_Role (example_create "secret" user_v1.Role_UNSPECIFIED) = user_v1.Role_UNSPECIFIED ∧
  pgx.users (snd (Create example_base64Encode example_digest example_env one_user_store
                    (example_create "secret" user_v1.Role_UNSPECIFIED)))
  = pgx.users one_user_store.
Proof.
  split; [reflexivity|].
  exact (proj1 (proj2 (proj1 (Create_role example_base64Encode example_digest example_env
                                one_user_store
                                (example_create "secret" user_v1.Role_UNSPECIFIED))
                         eq_refl))).
Defined.

(** The row of a successful [Create]: the name trimmed, the email
    trimmed and lower-cased, and for the password what [hashAndSalt]
    returned. *)
Lemma Create_stores base64Encode digest (e : Env) (db db' : pgx.Pool)
    (req : user_v1.CreateRequest) (resp : user_v1.CreateResponse) :
  Create base64Encode digest e db req = (Reply resp, db') →
  ∃ r password,
    pgx.users db !! user_v1.cresp_Id resp = None ∧
    pgx.users db' !! user_v1.cresp_Id resp = Some r ∧
    pgx.name r = Strings.TrimSpace (user_v1.cr_Name req) ∧
    pgx.email r = Strings.ToLower (Strings.TrimSpace (user_v1.cr_Email req)) ∧
    hashAndSalt base64Encode digest e (user_v1.cr_Password req) = Ok password ∧
    pgx.password r = password.
Proof.
  intros Hc. apply Create_Reply_inv in Hc as (password & Hp & _ & _ & -> & Hk & ->).
  exists (Create_row (env_now e) password req), password.
  cbn [user_v1.cresp_Id pgx.users pgx.with_users]. rewrite lookup_insert_eq. done.
Qed.

(** A password that does not start like a hash of the library is never
    stored as it is. *)
Lemma Create_password_differs base64Encode digest (e : Env) (db db' : pgx.Pool)
    (req : user_v1.CreateRequest) (resp : user_v1.CreateResponse) (r : pgx.users_row) :
  Create base64Encode digest e db req = (Reply resp, db') →
  pgx.users db' !! user_v1.cresp_Id resp = Some r →
  (∀ rest, user_v1.cr_Password req ≠ "$2a$04$" +:+ rest) →
  pgx.password r ≠ user_v1.cr_Password req.
Proof.
  intros Hc Hr Hn. apply Create_stores in Hc as (r' & password & _ & Hr' & _ & _ & Hh & Hp).
  rewrite Hr in Hr'. injection Hr' as <-.
  apply hashAndSalt_prefix in Hh as [rest ->]. rewrite Hp. intros Heq.
  exact (Hn rest (eq_sym Heq)).
Qed.



(** C10: [Create] does not look at the password before hashing it.  With
    the empty password and a salt at hand, the hash of the empty string is
    computed, the insert with that hash reaches the pool, and whenever the
    pool accepts the insert, [Create] succeeds. *)
Theorem Create_empty_password base64Encode digest (e : Env) (db : pgx.Pool)
    (req : user_v1.CreateRequest) (salt : string) :
  user_v1.cr_Password req = "" →
  env_rand e = Ok salt →
  let hash := "$2a$04$" +:+ base64Encode salt +:+ digest "" 4 (base64Encode salt) in
  let stmt := sq.SInsert (Create_builder hash req) in
  hashAndSalt base64Encode digest e "" = Ok hash ∧
  pgx.journal (snd (Create base64Encode digest e db req)) = stmt :: pgx.journal db ∧
  (∀ res db1,
     pgx.send e stmt db = (Ok res, db1) →
     Create base64Encode digest e db req
     = (Reply {| user_v1.cresp_Id := pgx.users_id_seq db + 1 |}, db1)) ∧
  (∀ err db1,
     pgx.send e stmt db = (Err err, db1) →
     Create base64Encode digest e db req
     = (Fail (status.Errorf codes.Internal "failed to insert user" err), db1)).
Proof.
  intros Hp Hs hash stmt.
  assert (Hh : hashAndSalt base64Encode digest e "" = Ok hash).
  { rewrite hashAndSalt_eq, Hs. reflexivity. }
  split; [exact Hh|].
  unfold stmt. rewrite Create_unfold, Create_send, Hp, Hh. cbv zeta.
  destruct (env_fault e) as [err|].
  { split; [reflexivity|]. split; intros ? ? [= <- <-]; reflexivity. }
  case_bool_decide.
  { split; [reflexivity|]. split; intros ? ? [= <- <-]; reflexivity. }
  destruct (pgx.insert_row _ _ _ _ _) as [[res|err] db1] eqn:E.
  - split.
    + apply insert_row_Ok in E as (_ & _ & _ & ->). reflexivity.
    + split; intros ? ? [= <- <-]. reflexivity.
  - split.
    + apply insert_row_Err in E as ->. reflexivity.
    + split; intros ? ? [= <- <-]. reflexivity.
Qed.

Lemma Create_empty_password_witness :
  Create example_base64Encode example_digest example_env empty_store
    (example_create "" user_v1.Role_ADMIN)
  = (Reply {| user_v1.cresp_Id := 1 |},
     snd (pgx.send example_env
            (sq.SInsert
               (Create_builder "$2a$04$abcdefghijklmnopqrstuvABCDEFGHIJKLMNOPQRSTUVWXYZ01234"
                  (example_create "" user_v1.Role_ADMIN)))
            empty_store)).
Proof.
  refine (proj1 (proj2 (proj2 (Create_empty_password example_base64Encode example_digest
                                 example_env empty_store
                                 (example_create "" user_v1.Role_ADMIN) "0123456789abcdef"
                                 eq_refl eq_refl))) _ _ _).
  vm_compute. reflexivity.
Defined.

(** ** [Update] and [Delete] *)



Lemma elem_of_email_clause (req : user_v1.UpdateRequest) (c : sq.setClause) :
  c ∈ email_clause req ↔
  ∃ s, user_v1.ur_Email req = Some s ∧ Strings.TrimSpace s ≠ "" ∧
       c = clause "email" (sq.Val (sq.AString (Strings.ToLower (Strings.TrimSpace s)))).
Proof.
  unfold email_clause.
  destruct (user_v1.ur_Email req) as [s|]; [case_bool_decide|];
    rewrite ?list_elem_of_singleton, ?elem_of_nil; naive_solver.
Qed.

Lemma elem_of_name_clause (req : user_v1.UpdateRequest) (c : sq.setClause) :
  c ∈ name_clause req ↔
  ∃ s, user_v1.ur_Name req = Some s ∧ Strings.TrimSpace s ≠ "" ∧
       c = clause "name" (sq.Val (sq.AString (Strings.TrimSpace s))).
Proof.
  unfold name_clause.
  destruct (user_v1.ur_Name req) as [s|]; [case_bool_decide|];
    rewrite ?list_elem_of_singleton, ?elem_of_nil; naive_solver.
Qed.

Lemma elem_of_role_clause (req : user_v1.UpdateRequest) (c : sq.setClause) :
  c ∈ role_clause req ↔
  user_v1.ur_Role req ≠ user_v1.Role_UNSPECIFIED ∧
  c = clause "role"
        (sq.Val (sq.AString (Strings.ToLower (user_v1.String_ (user_v1.ur_Role req))))).
Proof.
  unfold role_clause.
  case_bool_decide; rewrite ?list_elem_of_singleton, ?elem_of_nil; naive_solver.
Qed.

Lemma elem_of_Update_clauses (req : user_v1.UpdateRequest) (c : sq.setClause) :
  c ∈ sq.SetClauses (Update_builder req) ↔
  c ∈ email_clause req ∨ c ∈ name_clause req ∨ c ∈ role_clause req ∨ c = updated_at_clause.
Proof.
  rewrite Update_builder_eq. cbn [sq.SetClauses].
  rewrite !elem_of_app, list_elem_of_singleton. reflexivity.
Qed.








(** ** Failures *)

Lemma insert_row_journal (id : Z) (cols : list string) (r : pgx.users_row)
    (rows : list (list pgx.Datum)) (db : pgx.Pool) :
  pgx.journal (snd (pgx.insert_row id cols r rows db)) = pgx.journal db.
Proof.
  unfold pgx.insert_row.
  repeat match goal with
         | |- context [if ?b then _ else _] => destruct b
         end; reflexivity.
Qed.

Lemma Create_failures base64Encode digest (e : Env) (db : pgx.Pool)
    (req : user_v1.CreateRequest) :
  only_Internal (fst (Create base64Encode digest e db req)) ∧
  at_most_one_statement db (snd (Create base64Encode digest e db req)).
Proof.
  rewrite Create_unfold. unfold at_most_one_statement.
  destruct (hashAndSalt base64Encode digest e (user_v1.cr_Password req)) as [password|err];
    [|split; [reflexivity|left; reflexivity]].
  cbv zeta. destruct (env_fault e); [split; [reflexivity|right; eexists; reflexivity]|].
  case_bool_decide; [split; [reflexivity|right; eexists; reflexivity]|].
  pose proof (insert_row_journal (pgx.users_id_seq db + 1) Create_columns
                (Create_row (env_now e) password req)
                [[pgx.DInt (pgx.users_id_seq db + 1)]]
                (pgx.record (sq.SInsert (Create_builder password req)) db)) as Hj.
  destruct (pgx.insert_row _ _ _ _ _) as [[res|err] db']; cbn [fst snd] in *;
    (split; [reflexivity|right; eexists; exact Hj]).
Qed.






(** A [Create] whose email is taken fails with the internal kind, and
    the table is as it was. *)
Example Create_duplicate_email :
  let out := Create example_base64Encode example_digest example_env one_user_store
               {| user_v1.cr_Name := "Robert"; user_v1.cr_Email := "BOB@example.org";
                  user_v1.cr_Password := "other"; user_v1.cr_Role := user_v1.Role_ADMIN |} in
  fst out
  = Fail {| status.Code := codes.Internal;
            status.Message :=
              "failed to insert user: duplicate key value violates unique constraint users_email_key" |}
  ∧ pgx.users (snd out) = pgx.users one_user_store.
Proof. vm_compute. split; reflexivity. Qed.

Example Get_without_row :
  fst (Get example_env one_user_store {| user_v1.gr_Id := 2 |})
  = Fail {| status.Code := codes.Internal;
            status.Message := "failed to select user: no rows in result set" |}.
Proof. vm_compute. reflexivity. Qed.

(** * Further properties of the handlers *)

(** ** The constraints, as the store checks them *)

Lemma email_free_true (id : Z) (s : string) (t : gmap Z pgx.users_row) :
  pgx.email_free id s t = true ↔ ∀ k r, t !! k = Some r → k = id ∨ pgx.email r ≠ s.
Proof. unfold pgx.email_free. rewrite bool_decide_eq_true. reflexivity. Qed.

Lemma name_free_true (id : Z) (s : string) (t : gmap Z pgx.users_row) :
  pgx.name_free id s t = true ↔ ∀ k r, t !! k = Some r → k = id ∨ pgx.name r ≠ s.
Proof. unfold pgx.name_free. rewrite bool_decide_eq_true. reflexivity. Qed.


Lemma update_row_Ok (id : Z) (cols : list string) (r' : pgx.users_row) (db : pgx.Pool)
    (res : pgx.Result) (db' : pgx.Pool) :
  pgx.update_row id cols r' db = (Ok res, db') →
  db' = pgx.with_users (<[id := r']> (pgx.users db)) db ∧
  ("email" ∈ cols → ∀ k r, pgx.users db !! k = Some r → k = id ∨ pgx.email r ≠ pgx.email r') ∧
  ("name" ∈ cols → ∀ k r, pgx.users db !! k = Some r → k = id ∨ pgx.name r ≠ pgx.name r').
Proof.
  unfold pgx.update_row.
  destruct (bool_decide ("email" ∈ cols)) eqn:Hce;
    destruct (pgx.email_free id (pgx.email r') (pgx.users db)) eqn:He; cbn [negb andb];
    try discriminate;
    destruct (bool_decide ("name" ∈ cols)) eqn:Hcn;
    destruct (pgx.name_free id (pgx.name r') (pgx.users db)) eqn:Hn; cbn [negb andb];
    try discriminate; intros [= <- <-]; (split; [reflexivity|]);
    apply bool_decide_eq_true in Hce || apply bool_decide_eq_false in Hce;
    apply bool_decide_eq_true in Hcn || apply bool_decide_eq_false in Hcn;
    (split; [intros ?; try done; exact (proj1 (email_free_true _ _ _) He)
            |intros ?; try done; exact (proj1 (name_free_true _ _ _) Hn)]).
Qed.

Lemma update_row_Err (id : Z) (cols : list string) (r' : pgx.users_row) (db : pgx.Pool)
    (err : error) (db' : pgx.Pool) :
  pgx.update_row id cols r' db = (Err err, db') → db' = db.
Proof.
  unfold pgx.update_row.
  repeat match goal with
         | |- context [if ?b then _ else _] => destruct b
         end; intros [= <- <-] || discriminate; reflexivity.
Qed.

(** ** [Create] *)



(** X2: a [Create] that succeeds returns the next value of the sequence,
    which was the id of no row, leaves the sequence at that value, adds
    the row of that id to the table and leaves the other rows as they
    were: the table has one row more. *)
Theorem Create_adds_one_row base64Encode digest (e : Env) (db db' : pgx.Pool)
    (req : user_v1.CreateRequest) (resp : user_v1.CreateResponse) :
  Create base64Encode digest e db req = (Reply resp, db') →
  user_v1.cresp_Id resp = pgx.users_id_seq db + 1 ∧
  pgx.users_id_seq db' = user_v1.cresp_Id resp ∧
  pgx.users db !! user_v1.cresp_Id resp = None ∧
  is_Some (pgx.users db' !! user_v1.cresp_Id resp) ∧
  (∀ k, k ≠ user_v1.cresp_Id resp → pgx.users db' !! k = pgx.users db !! k) ∧
  size (pgx.users db') = S (size (pgx.users db)).
Proof.
  intros Hc. apply Create_Reply_inv in Hc as (password & _ & _ & _ & -> & Hk & ->).
  cbn [user_v1.cresp_Id pgx.users pgx.users_id_seq pgx.with_users pgx.with_seq].
  split; [reflexivity|]. split; [reflexivity|]. split; [exact Hk|].
  split; [rewrite lookup_insert_eq; eauto|].
  split.
  - intros k Hne. rewrite lookup_insert_ne by congruence. reflexivity.
  - apply map_size_insert_None. exact Hk.
Qed.

Lemma Create_adds_one_row_witness :
  size (pgx.users one_user_store) = S (size (pgx.users empty_store)).
Proof.
  exact (proj2 (proj2 (proj2 (proj2 (proj2
    (Create_adds_one_row example_base64Encode example_digest example_env empty_store
       one_user_store (example_create "secret" user_v1.Role_USER)
       {| user_v1.cresp_Id := 1 |} eq_refl)))))).
Defined.

(** ** Trimming and lower-casing *)














(** ** The constraints are kept *)

Lemma consistent_record (s : sq.Statement) (db : pgx.Pool) :
  consistent db → consistent (pgx.record s db).
Proof. intros [Hn He Hr Hi]. constructor; assumption. Qed.

Lemma consistent_with_seq (n : Z) (db : pgx.Pool) :
  pgx.users_id_seq db ≤ n → consistent db → consistent (pgx.with_seq n db).
Proof.
  intros Hle [Hn He Hr Hi]. constructor; try assumption.
  intros i r Hk. cbn. specialize (Hi i r Hk). lia.
Qed.

Lemma consistent_fewer_rows (t : gmap Z pgx.users_row) (db : pgx.Pool) :
  (∀ i r, t !! i = Some r → pgx.users db !! i = Some r) →
  consistent db → consistent (pgx.with_users t db).
Proof.
  intros Hsub [Hn He Hr Hi]. constructor; cbn.
  - intros i j r1 r2 H1 H2. apply Hn; auto.
  - intros i j r1 r2 H1 H2. apply He; auto.
  - intros i r H1. eapply Hr; eauto.
  - intros i r H1. eapply Hi; eauto.
Qed.

(** Writing at [id] a row that no other row contradicts. *)
Lemma consistent_write (id : Z) (r : pgx.users_row) (db : pgx.Pool) :
  consistent db →
  (∀ k r0, pgx.users db !! k = Some r0 → k = id ∨ pgx.email r0 ≠ pgx.email r) →
  (∀ k r0, pgx.users db !! k = Some r0 → k = id ∨ pgx.name r0 ≠ pgx.name r) →
  pgx.role r ∈ pgx.user_role →
  id ≤ pgx.users_id_seq db →
  consistent (pgx.with_users (<[id := r]> (pgx.users db)) db).
Proof.
  intros [Hn He Hr Hi] Hfe Hfn Hrole Hid. constructor; cbn.
  - intros i j r1 r2. rewrite !lookup_insert_Some.
    intros [[<- <-]|[Hi1 H1]] [[<- <-]|[Hj1 H2]] Heq; try done.
    + destruct (Hfn j r2 H2); congruence.
    + destruct (Hfn i r1 H1); congruence.
    + eapply Hn; eauto.
  - intros i j r1 r2. rewrite !lookup_insert_Some.
    intros [[<- <-]|[Hi1 H1]] [[<- <-]|[Hj1 H2]] Heq; try done.
    + destruct (Hfe j r2 H2); congruence.
    + destruct (Hfe i r1 H1); congruence.
    + eapply He; eauto.
  - intros i r1. rewrite lookup_insert_Some. intros [[<- <-]|[_ H1]]; eauto.
  - intros i r1. rewrite lookup_insert_Some. intros [[<- <-]|[_ H1]]; eauto.
Qed.

Lemma Create_role_label (req : user_v1.CreateRequest) :
  user_v1.cr_Role req ≠ user_v1.Role_UNSPECIFIED →
  Strings.ToLower (user_v1.String_ (user_v1.cr_Role req)) ∈ pgx.user_role.
Proof. destruct (user_v1.cr_Role req); [done| |]; intros _; vm_compute; set_solver. Qed.

Lemma Create_consistent base64Encode digest (e : Env) (db : pgx.Pool)
    (req : user_v1.CreateRequest) :
  consistent db → consistent (snd (Create base64Encode digest e db req)).
Proof.
  intros Hc. rewrite Create_unfold.
  destruct (hashAndSalt base64Encode digest e (user_v1.cr_Password req)) as [password|err];
    [|exact Hc].
  cbv zeta. pose proof (consistent_record (sq.SInsert (Create_builder password req)) db Hc) as Hc1.
  destruct (env_fault e); [exact Hc1|].
  case_bool_decide as Hr; [exact Hc1|].
  destruct (pgx.insert_row _ _ _ _ _) as [[res|err] db'] eqn:E; cbn [snd].
  - apply insert_row_Ok in E as (Hk & Hfe & Hfn & ->).
    apply (consistent_write (pgx.users_id_seq db + 1) (Create_row (env_now e) password req)
             (pgx.with_seq (pgx.users_id_seq db + 1)
                (pgx.record (sq.SInsert (Create_builder password req)) db))).
    + apply consistent_with_seq; [cbn; lia|exact Hc1].
    + exact (proj1 (email_free_true _ _ _) Hfe).
    + exact (proj1 (name_free_true _ _ _) Hfn).
    + apply Create_role_label, Hr.
    + cbn. lia.
  - apply insert_row_Err in E as ->. apply consistent_with_seq; [cbn; lia|exact Hc1].
Qed.

Lemma Update_columns_effect (now : Z) (req : user_v1.UpdateRequest) (r : pgx.users_row) :
  let cols := sq.column <$> sq.SetClauses (Update_builder req) in
  let r' := Update_effect now req r in
  ("email" ∈ cols ∨ pgx.email r' = pgx.email r) ∧
  ("name" ∈ cols ∨ pgx.name r' = pgx.name r) ∧
  (pgx.role r' = pgx.role r ∨ pgx.role r' ∈ pgx.user_role) ∧
  pgx.password r' = pgx.password r ∧
  pgx.created_at r' = pgx.created_at r ∧
  pgx.updated_at r' = now.
Proof.
  cbv zeta. rewrite Update_builder_eq. cbn [sq.SetClauses].
  unfold Update_effect, email_clause, name_clause, role_clause.
  destruct req as [id em nm rl].
  cbn [user_v1.ur_Email user_v1.ur_Name user_v1.ur_Role user_v1.ur_Id].
  destruct em as [v|], nm as [w|]; repeat case_bool_decide; destruct rl; try congruence;
    (split; [first [right; reflexivity | left; apply (bool_decide_unpack _); vm_compute; exact I]|]);
    (split; [first [right; reflexivity | left; apply (bool_decide_unpack _); vm_compute; exact I]|]);
    (split; [first [left; reflexivity | right; apply (bool_decide_unpack _); vm_compute; exact I]|]);
    repeat split.
Qed.

Lemma Update_consistent (e : Env) (db : pgx.Pool) (req : user_v1.UpdateRequest) :
  consistent db → consistent (snd (Update e db req)).
Proof.
  intros Hc. rewrite Update_unfold. cbv zeta.
  pose proof (consistent_record (sq.SUpdate (Update_builder req)) db Hc) as Hc1.
  destruct (env_fault e); [exact Hc1|].
  destruct (pgx.users db !! user_v1.ur_Id req) as [r|] eqn:Hk; [|exact Hc1].
  destruct (pgx.update_row _ _ _ _) as [[res|err] db'] eqn:E; cbn [snd].
  - apply update_row_Ok in E as (-> & Hfe & Hfn).
    destruct (Update_columns_effect (env_now e) req r) as (He & Hn & Hr & _).
    destruct Hc as [Hun Hue Hrl Hid].
    apply consistent_write; [exact Hc1| | | |].
    + destruct He as [He|He]; [exact (Hfe He)|].
      intros k r0 H0. destruct (decide (k = user_v1.ur_Id req)) as [|Hne]; [left; done|].
      right. intros Heq. apply Hne. eapply Hue; [exact H0|exact Hk|congruence].
    + destruct Hn as [Hn|Hn]; [exact (Hfn Hn)|].
      intros k r0 H0. destruct (decide (k = user_v1.ur_Id req)) as [|Hne]; [left; done|].
      right. intros Heq. apply Hne. eapply Hun; [exact H0|exact Hk|congruence].
    + destruct Hr as [Hr|Hr]; [rewrite Hr; eapply Hrl; exact Hk|exact Hr].
    + eapply Hid. exact Hk.
  - apply update_row_Err in E as ->. exact Hc1.
Qed.

Lemma Delete_consistent (e : Env) (db : pgx.Pool) (req : user_v1.DeleteRequest) :
  consistent db → consistent (snd (Delete e db req)).
Proof.
  intros Hc. rewrite Delete_unfold. cbv zeta.
  pose proof (consistent_record (sq.SDelete (Delete_builder req)) db Hc) as Hc1.
  destruct (env_fault e); [exact Hc1|].
  destruct (pgx.users db !! user_v1.dr_Id req); [|exact Hc1]. cbn [snd].
  apply consistent_fewer_rows; [|exact Hc1].
  intros i r. rewrite lookup_delete_Some. intros [_ H]. exact H.
Qed.

Lemma Get_unchanged (e : Env) (db : pgx.Pool) (req : user_v1.GetRequest) :
  pgx.users (snd (Get e db req)) = pgx.users db ∧
  pgx.users_id_seq (snd (Get e db req)) = pgx.users_id_seq db.
Proof.
  rewrite Get_unfold. cbv zeta. destruct (env_fault e); [done|].
  destruct (pgx.users db !! user_v1.gr_Id req); done.
Qed.

Lemma empty_store_consistent : consistent empty_store.
Proof.
  constructor; cbn.
  - intros i j r1 r2 H. rewrite lookup_empty in H. discriminate.
  - intros i j r1 r2 H. rewrite lookup_empty in H. discriminate.
  - intros i r H. rewrite lookup_empty in H. discriminate.
  - intros i r H. rewrite lookup_empty in H. discriminate.
Qed.

Lemma one_user_store_consistent : consistent one_user_store.
Proof. apply Create_consistent, empty_store_consistent. Qed.

(** X4: the four handlers keep the constraints of the migration: on a
    table where names and emails are unique, roles are labels of the
    enumerated type and ids are at most the last value of the sequence,
    each of them, whatever it returns, leaves such a table. *)
Theorem handlers_keep_constraints (db : pgx.Pool) :
  consistent db →
  (∀ base64Encode digest e req, consistent (snd (Create base64Encode digest e db req))) ∧
  (∀ e req, consistent (snd (Get e db req))) ∧
  (∀ e req, consistent (snd (Update e db req))) ∧
  (∀ e req, consistent (snd (Delete e db req))).
Proof.
  intros Hc. split; [|split; [|split]].
  - intros. apply Create_consistent, Hc.
  - intros e req. rewrite Get_unfold. cbv zeta.
    pose proof (consistent_record (sq.SSelect (Get_builder req)) db Hc) as Hc1.
    destruct (env_fault e); [exact Hc1|].
    destruct (pgx.users db !! user_v1.gr_Id req); exact Hc1.
  - intros. apply Update_consistent, Hc.
  - intros. apply Delete_consistent, Hc.
Qed.

Lemma handlers_keep_constraints_witness :
  consistent
    (snd (Update example_env one_user_store
            {| user_v1.ur_Id := 1; user_v1.ur_Email := Some "al@example.org";
               user_v1.ur_Name := Some "Al"; user_v1.ur_Role := user_v1.Role_ADMIN |})).
Proof.
  exact (proj1 (proj2 (proj2 (handlers_keep_constraints one_user_store
                                 one_user_store_consistent))) example_env _).
Defined.

(** ** [Get] *)

(** X5: [Get] writes nothing: whatever it returns, the table and the
    sequence are as before.  It returns a response exactly when the store
    call does not fail and the id is that of a row, and the response then
    carries the id, the name and the email of that row and its two times;
    the password is not part of it. *)
Theorem Get_reads_only (e : Env) (db : pgx.Pool) (req : user_v1.GetRequest) :
  pgx.users (snd (Get e db req)) = pgx.users db ∧
  pgx.users_id_seq (snd (Get e db req)) = pgx.users_id_seq db ∧
  ((∃ resp, fst (Get e db req) = Reply resp) ↔
   env_fault e = None ∧ is_Some (pgx.users db !! user_v1.gr_Id req)) ∧
  (∀ resp, fst (Get e db req) = Reply resp →
     ∃ r, pgx.users db !! user_v1.gr_Id req = Some r ∧
          user_v1.g_Id resp = user_v1.gr_Id req ∧
          user_v1.g_Name resp = pgx.name r ∧
          user_v1.g_Email resp = pgx.email r ∧
          user_v1.g_CreatedAt resp = timestamppb.New (pgx.created_at r) ∧
          user_v1.g_UpdatedAt resp = timestamppb.New (pgx.updated_at r)).
Proof.
  split; [apply Get_unchanged|]. split; [apply Get_unchanged|].
  rewrite Get_unfold. cbv zeta.
  destruct (env_fault e) as [err|]; cbn [fst].
  { split; [split; [intros [resp [=]]|intros [[=] _]]|intros resp [=]]. }
  destruct (pgx.users db !! user_v1.gr_Id req) as [r|]; cbn [fst].
  - split; [split; eauto|]. intros resp [= <-]. exists r. done.
  - split; [split; [intros [resp [=]]|intros [_ [r [=]]]]|intros resp [=]].
Qed.

Lemma Get_reads_only_witness :
  ∃ r, pgx.users one_user_store !! 1 = Some r ∧ pgx.name r = "Bob".
Proof.
  destruct (proj2 (proj2 (proj2 (Get_reads_only example_env one_user_store
                                   {| user_v1.gr_Id := 1 |})))
              (Get_response 1 {| pgx.name := "Bob";
                                 pgx.email := "bob@example.org";
                                 pgx.password :=
                                   "$2a$04$abcdefghijklmnopqrstuvABCDEFGHIJKLMNOPQRSTUVWXYZ01234";
                                 pgx.role := "user";
                                 pgx.created_at := 1698762746123;
                                 pgx.updated_at := 1698762746123 |}))
    as (r & Hr & _ & Hn & _).
  - vm_compute. reflexivity.
  - exists r. split; [exact Hr|]. rewrite <- Hn. reflexivity.
Defined.

Lemma role_of_label (l : string) :
  l ∈ pgx.user_role →
  ∃ r, default user_v1.Role_UNSPECIFIED (user_v1.Role_value !! Strings.ToUpper l) = r ∧
       r ≠ user_v1.Role_UNSPECIFIED ∧
       Strings.ToLower (user_v1.String_ r) = l.
Proof.
  unfold pgx.user_role. rewrite !elem_of_cons, elem_of_nil.
  intros [->|[->|[]]].
  - exists user_v1.Role_USER. split; [vm_compute; reflexivity|]. split; [discriminate|reflexivity].
  - exists user_v1.Role_ADMIN. split; [vm_compute; reflexivity|]. split; [discriminate|reflexivity].
Qed.

(** X6: on a row whose role is a label of the enumerated type, as every
    row of a table that keeps the constraints is, [Get] never falls back
    to the unspecified role: the role it returns is user or admin, and the
    lower-case form of its name is the label that is stored. *)
Theorem Get_role_of_label (e : Env) (db : pgx.Pool) (req : user_v1.GetRequest)
    (resp : user_v1.GetResponse) :
  consistent db →
  fst (Get e db req) = Reply resp →
  user_v1.g_Role resp ≠ user_v1.Role_UNSPECIFIED ∧
  ∃ r, pgx.users db !! user_v1.gr_Id req = Some r ∧
       Strings.ToLower (user_v1.String_ (user_v1.g_Role resp)) = pgx.role r.
Proof.
  intros [_ _ Hrl _]. rewrite Get_unfold. cbv zeta.
  destruct (env_fault e); [discriminate|].
  destruct (pgx.users db !! user_v1.gr_Id req) as [r|] eqn:Hk; [|discriminate].
  intros [= <-]. cbn [Get_response user_v1.g_Role].
  destruct (role_of_label (pgx.role r) (Hrl _ _ Hk)) as (rl & -> & Hne & Hl).
  split; [exact Hne|]. exists r. split; [reflexivity|exact Hl].
Qed.

Lemma Get_role_of_label_witness :
  ∃ r, pgx.users one_user_store !! 1 = Some r ∧
       Strings.ToLower
         (user_v1.String_
            (user_v1.g_Role
               (Get_response 1 {| pgx.name := "Bob";
                                  pgx.email := "bob@example.org";
                                  pgx.password :=
                                    "$2a$04$abcdefghijklmnopqrstuvABCDEFGHIJKLMNOPQRSTUVWXYZ01234";
                                  pgx.role := "user";
                                  pgx.created_at := 1698762746123;
                                  pgx.updated_at := 1698762746123 |})))
       = pgx.role r.
Proof.
  refine (proj2 (Get_role_of_label example_env one_user_store {| user_v1.gr_Id := 1 |} _
                   one_user_store_consistent _)).
  vm_compute. reflexivity.
Defined.

(** ** [Delete] *)

(** X7: when the store call does not fail, [Delete] leaves the table
    without the row of the id and with every other row as it was, and
    leaves the sequence as it was; a [Get] of that id on the store it
    leaves fails with the internal error, a [Get] of another id answers
    what it answered before, and a second [Delete] of the id changes
    nothing. *)
Theorem Delete_removes_the_row (e e' : Env) (db : pgx.Pool) (req : user_v1.DeleteRequest) :
  env_fault e = None →
  let db' := snd (Delete e db req) in
  pgx.users db' = delete (user_v1.dr_Id req) (pgx.users db) ∧
  pgx.users_id_seq db' = pgx.users_id_seq db ∧
  (∃ msg, fst (Get e' db' {| user_v1.gr_Id := user_v1.dr_Id req |})
          = Fail {| status.Code := codes.Internal; status.Message := msg |}) ∧
  (∀ k, k ≠ user_v1.dr_Id req →
        fst (Get e' db' {| user_v1.gr_Id := k |}) = fst (Get e' db {| user_v1.gr_Id := k |})) ∧
  pgx.users (snd (Delete e db' req)) = pgx.users db'.
Proof.
  intros Hf. cbv zeta.
  assert (Hu : pgx.users (snd (Delete e db req)) = delete (user_v1.dr_Id req) (pgx.users db)).
  { rewrite Delete_unfold, Hf. cbv zeta.
    destruct (pgx.users db !! user_v1.dr_Id req) eqn:Hk; cbn [snd pgx.users pgx.with_users pgx.record];
      [reflexivity|]. symmetry. apply delete_id. exact Hk. }
  split; [exact Hu|]. split.
  { rewrite Delete_unfold, Hf. cbv zeta. destruct (pgx.users db !! user_v1.dr_Id req); done. }
  split; [|split].
  - rewrite Get_unfold. cbv zeta. cbn [user_v1.gr_Id]. rewrite Hu, lookup_delete_eq.
    destruct (env_fault e'); eexists; reflexivity.
  - intros k Hne. rewrite !Get_unfold. cbv zeta. cbn [user_v1.gr_Id].
    rewrite Hu, lookup_delete_ne by congruence.
    destruct (env_fault e'); [reflexivity|].
    destruct (pgx.users db !! k); reflexivity.
  - rewrite (Delete_unfold e (snd (Delete e db req))), Hf. cbv zeta.
    destruct (pgx.users (snd (Delete e db req)) !! user_v1.dr_Id req) eqn:E; [|reflexivity].
    rewrite Hu, lookup_delete_eq in E. discriminate.
Qed.

Lemma Delete_removes_the_row_witness :
  pgx.users (snd (Delete example_env one_user_store {| user_v1.dr_Id := 1 |}))
  = delete 1 (pgx.users one_user_store).
Proof.
  exact (proj1 (Delete_removes_the_row example_env example_env one_user_store
                  {| user_v1.dr_Id := 1 |} eq_refl)).
Defined.

(** ** [Update] *)

(** X8: an [Update] that supplies the role only, of a row that exists
    and when the store call does not fail, always succeeds: no constraint
    can refuse it.  The row gets the lower-case name of the role and the
    current time of update; its name, email, password and time of creation
    and every other row are as before. *)
Theorem Update_role_only (e : Env) (db : pgx.Pool) (req : user_v1.UpdateRequest)
    (r : pgx.users_row) :
  user_v1.ur_Email req = None →
  user_v1.ur_Name req = None →
  user_v1.ur_Role req ≠ user_v1.Role_UNSPECIFIED →
  env_fault e = None →
  pgx.users db !! user_v1.ur_Id req = Some r →
  fst (Update e db req) = Reply user_v1.Empty_ ∧
  pgx.users (snd (Update e db req))
  = <[user_v1.ur_Id req :=
        {| pgx.name := pgx.name r;
           pgx.email := pgx.email r;
           pgx.password := pgx.password r;
           pgx.role := Strings.ToLower (user_v1.String_ (user_v1.ur_Role req));
           pgx.created_at := pgx.created_at r;
           pgx.updated_at := env_now e |}]> (pgx.users db).
Proof.
  intros He Hn Hr Hf Hk.
  assert (Hc : sq.column <$> sq.SetClauses (Update_builder req) = ["role"; "updated_at"]).
  { rewrite Update_builder_eq. cbn [sq.SetClauses].
    unfold email_clause, name_clause, role_clause. rewrite He, Hn.
    rewrite bool_decide_eq_true_2 by exact Hr. reflexivity. }
  assert (Hu : Update_effect (env_now e) req r
               = {| pgx.name := pgx.name r;
                    pgx.email := pgx.email r;
                    pgx.password := pgx.password r;
                    pgx.role := Strings.ToLower (user_v1.String_ (user_v1.ur_Role req));
                    pgx.created_at := pgx.created_at r;
                    pgx.updated_at := env_now e |}).
  { unfold Update_effect. rewrite He, Hn. rewrite bool_decide_eq_true_2 by exact Hr.
    reflexivity. }
  rewrite Update_unfold, Hf, Hk, Hc, Hu. cbv zeta. done.
Qed.

Lemma Update_role_only_witness :
  fst (Update example_env one_user_store
         {| user_v1.ur_Id := 1; user_v1.ur_Email := None; user_v1.ur_Name := None;
            user_v1.ur_Role := user_v1.Role_ADMIN |})
  = Reply user_v1.Empty_.
Proof.
  refine (proj1 (Update_role_only example_env one_user_store
                   {| user_v1.ur_Id := 1; user_v1.ur_Email := None; user_v1.ur_Name := None;
                      user_v1.ur_Role := user_v1.Role_ADMIN |} _
                   eq_refl eq_refl _ eq_refl _)).
  - discriminate.
  - vm_compute. reflexivity.
Defined.








(** X12: whatever it returns, an [Update] neither adds nor removes a
    row, leaves every row of another id as it was, leaves the password and
    the time of creation of the row of its id as they were, and leaves the
    sequence as it was. *)
Theorem Update_frame (e : Env) (db : pgx.Pool) (req : user_v1.UpdateRequest) :
  dom (pgx.users (snd (Update e db req))) = dom (pgx.users db) ∧
  (∀ k, k ≠ user_v1.ur_Id req →
        pgx.users (snd (Update e db req)) !! k = pgx.users db !! k) ∧
  (∀ r r', pgx.users db !! user_v1.ur_Id req = Some r →
           pgx.users (snd (Update e db req)) !! user_v1.ur_Id req = Some r' →
           pgx.password r' = pgx.password r ∧ pgx.created_at r' = pgx.created_at r) ∧
  pgx.users_id_seq (snd (Update e db req)) = pgx.users_id_seq db.
Proof.
  rewrite Update_unfold. cbv zeta.
  destruct (env_fault e).
  { cbn. split; [reflexivity|]. split; [reflexivity|]. split; [|reflexivity].
    intros r r' -> [= <-]. done. }
  destruct (pgx.users db !! user_v1.ur_Id req) as [r|] eqn:Hk.
  2:{ cbn. split; [reflexivity|]. split; [reflexivity|]. split; [|reflexivity].
      intros r r' [=]. }
  destruct (pgx.update_row _ _ _ _) as [[res|err] db'] eqn:E; cbn [snd].
  - apply update_row_Ok in E as (-> & _). cbn [pgx.users pgx.with_users pgx.users_id_seq pgx.record].
    split; [apply dom_insert_lookup_L; eauto|].
    split; [intros k Hne; rewrite lookup_insert_ne by congruence; reflexivity|].
    split; [|reflexivity].
    intros r1 r' [= <-]. rewrite lookup_insert_eq. intros [= <-].
    destruct (Update_columns_effect (env_now e) req r) as (_ & _ & _ & Hp & Hc & _). done.
  - apply update_row_Err in E as ->. cbn. split; [reflexivity|]. split; [reflexivity|].
    split; [|reflexivity]. intros r1 r'. rewrite Hk. intros [= <-] [= <-]. done.
Qed.

(** ** What the handlers send *)

Lemma cons_neq {A} (x : A) (l : list A) : x :: l ≠ l.
Proof. intros H. apply (f_equal length) in H. cbn in H. lia. Qed.

(** X13: [Create] hashes before it asks the store: the pool is asked to
    run a statement exactly when hashing the password succeeded, and when
    hashing fails, as it does when the salt cannot be read, [Create]
    returns the internal error with the store untouched. *)
Theorem Create_hashes_first base64Encode digest (e : Env) (db : pgx.Pool)
    (req : user_v1.CreateRequest) :
  (pgx.journal (snd (Create base64Encode digest e db req)) = pgx.journal db ↔
   ∃ err, hashAndSalt base64Encode digest e (user_v1.cr_Password req) = Err err) ∧
  (∀ err, hashAndSalt base64Encode digest e (user_v1.cr_Password req) = Err err →
          Create base64Encode digest e db req
          = (Fail (status.Errorf codes.Internal "failed to hash password" err), db)) ∧
  (∀ err, env_rand e = Err err →
          String.length (user_v1.cr_Password req) ≤ 72 →
          hashAndSalt base64Encode digest e (user_v1.cr_Password req) = Err err)%nat.
Proof.
  split; [|split].
  - pose proof (Create_failures base64Encode digest e db req) as [_ Hj].
    rewrite Create_unfold in *.
    destruct (hashAndSalt base64Encode digest e (user_v1.cr_Password req)) as [password|err].
    + split; [|intros [err [=]]]. intros Heq. exfalso.
      destruct Hj as [Hj|[s Hj]].
      * cbv zeta in *. destruct (env_fault e); [exact (cons_neq _ _ Hj)|].
        case_bool_decide; [exact (cons_neq _ _ Hj)|].
        pose proof (insert_row_journal (pgx.users_id_seq db + 1) Create_columns
                      (Create_row (env_now e) password req)
                      [[pgx.DInt (pgx.users_id_seq db + 1)]]
                      (pgx.record (sq.SInsert (Create_builder password req)) db)) as Hi.
        destruct (pgx.insert_row _ _ _ _ _) as [[res|err] db']; cbn [snd] in *;
          rewrite Hi in Heq; exact (cons_neq _ _ Heq).
      * rewrite Hj in Heq. exact (cons_neq _ _ Heq).
    + split; [eauto|reflexivity].
  - intros err Hh. rewrite Create_unfold, Hh. reflexivity.
  - intros err Hr Hl. rewrite hashAndSalt_eq, Hr.
    destruct (72 <? String.length (user_v1.cr_Password req))%nat eqn:Hlt; [|reflexivity].
    apply Nat.ltb_lt in Hlt. lia.
Qed.

Lemma Create_hashes_first_witness :
  Create example_base64Encode example_digest
    {| env_now := 0; env_fault := None; env_rand := Err "unexpected EOF" |}
    one_user_store (example_create "secret" user_v1.Role_USER)
  = (Fail (status.Errorf codes.Internal "failed to hash password" "unexpected EOF"),
     one_user_store).
Proof.
  refine (proj1 (proj2 (Create_hashes_first example_base64Encode example_digest
                          {| env_now := 0; env_fault := None; env_rand := Err "unexpected EOF" |}
                          one_user_store (example_create "secret" user_v1.Role_USER))) _ _).
  vm_compute. reflexivity.
Defined.

(** X14: squirrel accepts the four statements for every request, so no
    handler ever reports that it failed to build its query: the status of
    an error is never the one of that branch. *)
Theorem build_never_fails :
  (∀ password req, ∃ q, sq.ToSql (sq.SInsert (Create_builder password req)) = Ok q) ∧
  (∀ req, ∃ q, sq.ToSql (sq.SSelect (Get_builder req)) = Ok q) ∧
  (∀ req, ∃ q, sq.ToSql (sq.SUpdate (Update_builder req)) = Ok q) ∧
  (∀ req, ∃ q, sq.ToSql (sq.SDelete (Delete_builder req)) = Ok q) ∧
  (∀ base64Encode digest e db req err,
     fst (Create base64Encode digest e db req)
     ≠ Fail (status.Errorf codes.Internal "failed to build query" err)) ∧
  (∀ e db req err,
     fst (Get e db req) ≠ Fail (status.Errorf codes.Internal "failed to build query" err)) ∧
  (∀ e db req err,
     fst (Update e db req) ≠ Fail (status.Errorf codes.Internal "failed to build query" err)) ∧
  (∀ e db req err,
     fst (Delete e db req) ≠ Fail (status.Errorf codes.Internal "failed to build query" err)).
Proof.
  split; [|split; [|split; [|split; [|split; [|split; [|split]]]]]].
  - intros. rewrite Create_ToSql. eauto.
  - intros. rewrite Get_ToSql. eauto.
  - apply Update_ToSql.
  - intros. rewrite Delete_ToSql. eauto.
  - intros base64Encode digest e db req err. rewrite Create_unfold.
    destruct (hashAndSalt base64Encode digest e (user_v1.cr_Password req)); [|discriminate].
    cbv zeta. destruct (env_fault e); [discriminate|].
    case_bool_decide; [discriminate|].
    destruct (pgx.insert_row _ _ _ _ _) as [[res|err'] db']; discriminate.
  - intros e db req err. rewrite Get_unfold. cbv zeta.
    destruct (env_fault e); [discriminate|].
    destruct (pgx.users db !! user_v1.gr_Id req); discriminate.
  - intros e db req err. rewrite Update_unfold. cbv zeta.
    destruct (env_fault e); [discriminate|].
    destruct (pgx.users db !! user_v1.ur_Id req); [|discriminate].
    destruct (pgx.update_row _ _ _ _) as [[res|err'] db']; discriminate.
  - intros e db req err. rewrite Delete_unfold. cbv zeta.
    destruct (env_fault e); [discriminate|].
    destruct (pgx.users db !! user_v1.dr_Id req); discriminate.
Qed.

(** ** Ids *)

(** X15: on a table whose ids are at most the last value of the
    sequence, the id that a successful [Create] returns is greater than
    the id of every row, and a [Delete] does not give an id back: a
    [Create] that succeeds after the [Delete] of a row returns another id
    than the one of that row. *)
Theorem Create_fresh_id base64Encode digest (e e' : Env) (db db' : pgx.Pool)
    (req : user_v1.CreateRequest) (resp : user_v1.CreateResponse) (dreq : user_v1.DeleteRequest) :
  consistent db →
  (Create base64Encode digest e db req = (Reply resp, db') →
   ∀ k r, pgx.users db !! k = Some r → k < user_v1.cresp_Id resp) ∧
  (is_Some (pgx.users db !! user_v1.dr_Id dreq) →
   Create base64Encode digest e (snd (Delete e' db dreq)) req = (Reply resp, db') →
   user_v1.cresp_Id resp ≠ user_v1.dr_Id dreq).
Proof.
  intros [_ _ _ Hid]. split.
  - intros Hc k r Hk. apply Create_Reply_inv in Hc as (_ & _ & _ & _ & -> & _).
    cbn. specialize (Hid k r Hk). lia.
  - intros [r Hk] Hc. apply Create_Reply_inv in Hc as (_ & _ & _ & _ & -> & _).
    cbn [user_v1.cresp_Id].
    assert (Hs : pgx.users_id_seq (snd (Delete e' db dreq)) = pgx.users_id_seq db).
    { rewrite Delete_unfold. cbv zeta. destruct (env_fault e'); [reflexivity|].
      destruct (pgx.users db !! user_v1.dr_Id dreq); reflexivity. }
    rewrite Hs. specialize (Hid _ r Hk). lia.
Qed.

Lemma Create_fresh_id_witness :
  1 < user_v1.cresp_Id {| user_v1.cresp_Id := 2 |}.
Proof.
  refine (proj1 (Create_fresh_id example_base64Encode example_digest example_env example_env
                   one_user_store _
                   {| user_v1.cr_Name := "Al"; user_v1.cr_Email := "al@example.org";
                      user_v1.cr_Password := "pw"; user_v1.cr_Role := user_v1.Role_ADMIN |}
                   {| user_v1.cresp_Id := 2 |} {| user_v1.dr_Id := 1 |}
                   one_user_store_consistent) _ 1
            (Create_row 1698762746123
               "$2a$04$abcdefghijklmnopqrstuvABCDEFGHIJKLMNOPQRSTUVWXYZ01234"
               (example_create "secret" user_v1.Role_USER)) _).
  - vm_compute. reflexivity.
  - vm_compute. reflexivity.
Defined.

(** ** The scan of the role *)


(** * Properties of [main] and of the migration *)

(** ** [main] *)

Lemma main_cases (envPath : string) (o : startup.Outcomes) :
  (startup.all_well envPath o ∧ startup.Close ∈ startup.main envPath o ∧
   startup.Exit 1 ∉ startup.main envPath o) ∨
  ((¬ startup.all_well envPath o) ∧ (startup.Close ∉ startup.main envPath o) ∧
   startup.Exit 1 ∈ startup.main envPath o).
Proof.
  unfold startup.main, startup.all_well, startup.Fatalf.
  destruct (startup.o_Load o envPath) as [err|] eqn:H1.
  { right. rewrite !elem_of_cons, !elem_of_nil. naive_solver. }
  destruct (startup.o_NewGRPCConfig o) as [address|err] eqn:H2.
  2:{ right. rewrite !elem_of_cons, !elem_of_nil. naive_solver. }
  destruct (startup.o_NewPGConfig o) as [dsn|err] eqn:H3.
  2:{ right. rewrite !elem_of_cons, !elem_of_nil. naive_solver. }
  destruct (startup.o_Listen o address) as [err|] eqn:H4.
  { right. rewrite !elem_of_cons, !elem_of_nil. naive_solver. }
  destruct (startup.o_New o dsn) as [err|] eqn:H5.
  { right. rewrite !elem_of_cons, !elem_of_nil. naive_solver. }
  destruct (startup.o_Serve o) as [err|] eqn:H6.
  { right. rewrite !elem_of_cons, !elem_of_nil. naive_solver. }
  left. rewrite !elem_of_cons, !elem_of_nil.
  split; [|naive_solver].
  split; [reflexivity|]. exists address, dsn. done.
Qed.

(** X17: [main] closes the pool exactly when every step succeeded and
    [Serve] returned without error; in every other run the process exits
    with status 1 and the pool is not closed, also when the pool had been
    opened and it is [Serve] that failed. *)
Theorem main_closes_the_pool (envPath : string) (o : startup.Outcomes) :
  (startup.Close ∈ startup.main envPath o ↔ startup.all_well envPath o) ∧
  (startup.Exit 1 ∈ startup.main envPath o ↔ ¬ startup.all_well envPath o) ∧
  (∀ address dsn err,
     startup.o_Load o envPath = None →
     startup.o_NewGRPCConfig o = Ok address →
     startup.o_NewPGConfig o = Ok dsn →
     startup.o_Listen o address = None →
     startup.o_New o dsn = None →
     startup.o_Serve o = Some err →
     startup.NewPool dsn ∈ startup.main envPath o ∧
     startup.Close ∉ startup.main envPath o).
Proof.
  destruct (main_cases envPath o) as [(Hw & Hc & He)|(Hw & Hc & He)].
  - split; [tauto|]. split; [tauto|].
    intros address dsn err _ H2 H3 _ _ H6. exfalso.
    destruct Hw as (_ & a & d & _ & _ & _ & _ & H6'). congruence.
  - split; [tauto|]. split; [tauto|].
    intros address dsn err H1 H2 H3 H4 H5 H6. split; [|exact Hc].
    unfold startup.main. rewrite H1, H2, H3, H4, H5.
    rewrite !elem_of_cons. tauto.
Qed.

Lemma main_closes_the_pool_witness :
  let o := {| startup.o_Load := λ _, None;
              startup.o_NewGRPCConfig := Ok "localhost:50051";
              startup.o_NewPGConfig := Ok "host=db";
              startup.o_Listen := λ _, None;
              startup.o_New := λ _, None;
              startup.o_Serve := Some "use of closed network connection" |} in
  startup.NewPool "host=db" ∈ startup.main ".env" o ∧
  startup.Close ∉ startup.main ".env" o.
Proof.
  intros o.
  exact (proj2 (proj2 (main_closes_the_pool ".env" o)) "localhost:50051" "host=db"
           "use of closed network connection" eq_refl eq_refl eq_refl eq_refl eq_refl eq_refl).
Defined.

(** X18: [main] takes its steps in order and stops at the first that
    fails: the listener is bound only with the two configurations at hand,
    the pool is opened only once the listener is bound, the server is
    registered and served only once the pool is opened, and nothing
    follows an exit. *)
Theorem main_in_order (envPath : string) (o : startup.Outcomes) :
  (∀ address, startup.Listen "tcp" address ∈ startup.main envPath o →
     startup.o_Load o envPath = None ∧ startup.o_NewGRPCConfig o = Ok address ∧
     ∃ dsn, startup.o_NewPGConfig o = Ok dsn) ∧
  (∀ dsn, startup.NewPool dsn ∈ startup.main envPath o →
     startup.o_NewPGConfig o = Ok dsn ∧
     ∃ address, startup.o_NewGRPCConfig o = Ok address ∧ startup.o_Listen o address = None) ∧
  (startup.Serve ∈ startup.main envPath o →
     ∃ dsn, startup.o_NewPGConfig o = Ok dsn ∧ startup.o_New o dsn = None) ∧
  (∀ (i : nat) n, startup.main envPath o !! i = Some (startup.Exit n) →
     n = 1 ∧ length (startup.main envPath o) = S i).
Proof.
  unfold startup.main, startup.Fatalf.
  destruct (startup.o_Load o envPath) as [err1|] eqn:H1;
    [|destruct (startup.o_NewGRPCConfig o) as [address|err2] eqn:H2;
      [destruct (startup.o_NewPGConfig o) as [dsn|err3] eqn:H3;
       [destruct (startup.o_Listen o address) as [err4|] eqn:H4;
        [|destruct (startup.o_New o dsn) as [err5|] eqn:H5;
          [|destruct (startup.o_Serve o) as [err6|] eqn:H6]]|]|]];
    (split; [intros a; rewrite list_elem_of_In; cbn [In]; intros H;
             repeat destruct H as [H|H]; try done; simplify_eq; repeat eexists; eauto|]);
    (split; [intros d; rewrite list_elem_of_In; cbn [In]; intros H;
             repeat destruct H as [H|H]; try done; simplify_eq; repeat eexists; eauto|]);
    (split; [rewrite list_elem_of_In; cbn [In]; intros H;
             repeat destruct H as [H|H]; try done; simplify_eq; repeat eexists; eauto|]);
    intros i n;
    do 12 (destruct i as [|i]; [cbn; intros [=]; subst; done|]);
    cbn; intros [=].
Qed.

(** ** The migration *)




(** X20: the statements of the handlers fit the table of the migration:
    every column that [Create] inserts, [Get] selects or [Update] sets is
    a column of the table; [Create] gives a value to every column that is
    declared not null, has no default and is not drawn from the sequence;
    and the text written for a role other than the unspecified one is a
    label of the enumerated type that the up direction creates. *)
Theorem statements_fit_the_table :
  let cols := migration.col_name <$> migration.columns migration.users_table in
  (∀ password req c, c ∈ sq.Columns_ (Create_builder password req) → c ∈ cols) ∧
  (∀ req c, c ∈ sq.s_Columns (Get_builder req) → c ∈ cols) ∧
  (∀ req c, c ∈ sq.column <$> sq.SetClauses (Update_builder req) → c ∈ cols) ∧
  (∀ password req col,
     col ∈ migration.columns migration.users_table →
     migration.col_not_null col = true →
     migration.col_default col = None →
     migration.col_type col ≠ migration.Builtin "SERIAL" →
     migration.col_name col ∈ sq.Columns_ (Create_builder password req)) ∧
  (∀ r, r ≠ user_v1.Role_UNSPECIFIED →
        migration.CreateEnum "user_role"
          [Strings.ToLower (user_v1.String_ user_v1.Role_USER);
           Strings.ToLower (user_v1.String_ user_v1.Role_ADMIN)] ∈ migration.Up ∧
        Strings.ToLower (user_v1.String_ r) ∈ pgx.user_role).
Proof.
  cbv zeta. split; [|split; [|split; [|split]]].
  - intros password req c.
    change (sq.Columns_ (Create_builder password req)) with Create_columns.
    unfold Create_columns. cbn. set_solver.
  - intros req c. cbn. set_solver.
  - intros req c. rewrite list_elem_of_fmap. intros (cl & -> & Hcl).
    apply elem_of_Update_clauses in Hcl.
    rewrite elem_of_email_clause, elem_of_name_clause, elem_of_role_clause in Hcl.
    destruct Hcl as [(s & _ & _ & ->)|[(s & _ & _ & ->)|[(_ & ->)| ->]]]; cbn; set_solver.
  - intros password req col Hin.
    change (sq.Columns_ (Create_builder password req)) with Create_columns.
    unfold migration.users_table in Hin. cbn [migration.columns] in Hin.
    rewrite !elem_of_cons, elem_of_nil in Hin.
    destruct Hin as [->|[->|[->|[->|[->|[->|[->|[]]]]]]]]; cbn; intros Hn Hd Ht;
      try discriminate; try (destruct Ht; reflexivity); unfold Create_columns; set_solver.
  - intros r Hr. split; [left|].
    destruct r; [done| |]; vm_compute; set_solver.
Qed.

Lemma statements_fit_the_table_witness :
  migration.col_name
    {| migration.col_name := "role"; migration.col_type := migration.Named "user_role";
       migration.col_not_null := true; migration.col_default := None |}
  ∈ sq.Columns_ (Create_builder "hash" (example_create "secret" user_v1.Role_USER)).
Proof.
  refine (proj1 (proj2 (proj2 (proj2 statements_fit_the_table))) "hash"
            (example_create "secret" user_v1.Role_USER)
            {| migration.col_name := "role"; migration.col_type := migration.Named "user_role";
               migration.col_not_null := true; migration.col_default := None |}
            _ eq_refl eq_refl _).
  - vm_compute. set_solver.
  - discriminate.
Defined.
